(** * Video merge service: the upload-to-merge pipeline of [index.js]

    A shallow embedding of the request handler of the service (staging
    names, concat manifest, FFmpeg invocation, response, cleanup) and
    the properties of the pipeline stated over it. *)

From Stdlib Require Import ZArith NArith Ascii String DecimalN DecimalZ.
From stdpp Require Import base decidable option list gmap sets.

Local Open Scope N_scope.

(** ** JavaScript strings

    A JavaScript string is a sequence of UTF-16 code units; the regular
    expressions of the program have no [u] flag and therefore work one
    code unit at a time. *)

Abbreviation char := N (only parsing).
Abbreviation jsstring := (list N) (only parsing).

(** String literals of the source, as code units. *)
Definition str (s : string) : jsstring :=
  map N_of_ascii (list_ascii_of_string s).

Definition c_lf : char := 10.
Definition c_quote : char := 39.
Definition c_minus : char := 45.
Definition c_dot : char := 46.
Definition c_slash : char := 47.
Definition c_backslash : char := 92.
Definition c_underscore : char := 95.

(** [String(n)] for an integral number, as in a template literal. *)
Fixpoint digits (u : Decimal.uint) : jsstring :=
  match u with
  | Decimal.Nil => []
  | Decimal.D0 u => 48 :: digits u
  | Decimal.D1 u => 49 :: digits u
  | Decimal.D2 u => 50 :: digits u
  | Decimal.D3 u => 51 :: digits u
  | Decimal.D4 u => 52 :: digits u
  | Decimal.D5 u => 53 :: digits u
  | Decimal.D6 u => 54 :: digits u
  | Decimal.D7 u => 55 :: digits u
  | Decimal.D8 u => 56 :: digits u
  | Decimal.D9 u => 57 :: digits u
  end.

Definition string_of_int (z : Z) : jsstring :=
  match Z.to_int z with
  | Decimal.Pos u => digits u
  | Decimal.Neg u => c_minus :: digits u
  end.

(** [Array.prototype.join]. *)
Fixpoint join (sep : jsstring) (parts : list jsstring) : jsstring :=
  match parts with
  | [] => []
  | [p] => p
  | p :: rest => p ++ sep ++ join sep rest
  end.

(** [String.prototype.split] on a one-unit separator: the pieces between
    the occurrences of [sep]. *)
Fixpoint split_on (sep : char) (s : jsstring) : list jsstring :=
  match s with
  | [] => [[]]
  | c :: s' =>
      if N.eqb c sep then [] :: split_on sep s'
      else match split_on sep s' with
           | [] => [[c]]
           | p :: ps => (c :: p) :: ps
           end
  end.

(** ** Staging names (multer disk storage, lines 20-31) *)

(** The class of [/[^a-zA-Z0-9.\-]/g], before negation. *)
Definition in_class (c : char) : bool :=
  ((97 <=? c) && (c <=? 122)) || ((65 <=? c) && (c <=? 90))
  || ((48 <=? c) && (c <=? 57)) || (c =? c_dot) || (c =? c_minus).

(** [file.originalname.replace(/[^a-zA-Z0-9.\-]/g, "_")] *)
Definition safeName (originalname : jsstring) : jsstring :=
  map (fun c => if in_class c then c else c_underscore) originalname.

(** [`${ts}_${safeName}`] with [ts = Date.now()]. *)
Definition filename (ts : Z) (originalname : jsstring) : jsstring :=
  string_of_int ts ++ str "_" ++ safeName originalname.

(** The class [A-Za-z0-9._-] of the specification, by its code units:
    [A]-[Z] are 65-90, [a]-[z] are 97-122, [0]-[9] are 48-57, and [.],
    [_], [-] are 46, 95, 45. *)
Definition in_spec_class (c : char) : bool :=
  ((65 <=? c) && (c <=? 90)) || ((97 <=? c) && (c <=? 122))
  || ((48 <=? c) && (c <=? 57)) || (c =? 46) || (c =? 95) || (c =? 45).

(** ** Paths *)

(** The host's path convention decides the separator [path.join] puts
    between a directory and a name. *)
Inductive Platform := Posix | Win32.

Definition sep (p : Platform) : char :=
  match p with Posix => c_slash | Win32 => c_backslash end.

(** [path.join(dir, name)] for a normalized directory that does not end
    in a separator and a single name other than [.] and [..]: the upload
    directory is itself the result of [path.join(__dirname, "uploads")],
    and every name joined to it is built by the program from a
    timestamp, an underscore and separator-free text. *)
Definition path_join (p : Platform) (dir name : jsstring) : jsstring :=
  dir ++ sep p :: name.

(** [s.replace(/\\/g, "/")] *)
Definition slashes (s : jsstring) : jsstring :=
  map (fun c => if c =? c_backslash then c_slash else c) s.

(** A file object as multer leaves it in [req.files]. *)
Record File := mkFile { originalname : jsstring; path : jsstring }.

(** Disk storage: the destination is the upload directory, the name is
    [filename], and [file.path] is their join. *)
Definition stage (p : Platform) (uploadDir : jsstring) (part : Z * jsstring) : File :=
  {| originalname := part.2;
     path := path_join p uploadDir (filename part.1 part.2) |}.

(** ** The concat list (lines 66-68) *)

Definition list_entry (file : File) : jsstring :=
  str "file '" ++ slashes (path file) ++ str "'".

Definition listContent (files : list File) : jsstring :=
  join (str (String "010" EmptyString)) (map list_entry files).

(** ** The world of a request

    The upload directory holds a set of files; every operation that the
    handler performs on the outside is logged, in order, together with
    the content of the directory at that moment. *)

Record Body := mkBody { error : jsstring; details : option jsstring }.

Inductive Event :=
  | EvWriteFile (file content : jsstring)
  | EvFfmpeg (input output : jsstring)
  | EvDownload (file name : jsstring)
  | EvSent (sendErr : option jsstring)
  | EvCleanup (uploadedFiles : list File) (listFile mergedFile : option jsstring)
  | EvRemove (file : jsstring)
  | EvJson (status : Z) (body : Body).

Record World := mkWorld { disk : gset jsstring; log : list (Event * gset jsstring) }.

Definition events (w : World) : list Event := map fst (log w).

(** What the surroundings decide during one request. *)
Inductive WriteResult :=
  | WriteOk
  | WriteErr (message : jsstring) (created : bool).

Inductive FfmpegResult :=
  | FfEnd
  | FfError (message : jsstring) (partial : bool).

Record Env := mkEnv {
  platform : Platform;
  uploadDir : jsstring;
  now_concat : Z;                         (* [Date.now()] of line 62 *)
  now_merged : Z;                         (* [Date.now()] of line 72 *)
  writeFile_result : WriteResult;         (* how [fs.writeFile] settles *)
  ffmpeg_result : FfmpegResult;           (* which of 'end' and 'error' fires *)
  send_result : option jsstring;          (* [sendErr] of [res.download] *)
  remove_error : jsstring -> option jsstring  (* the paths [fs.remove] fails on *)
}.

(** ** Computations: state, and exceptions carried by their message *)

Inductive Result (A : Type) :=
  | Ok (a : A)
  | Throw (message : jsstring).
Arguments Ok {A} a.
Arguments Throw {A} message.

Definition M (A : Type) : Type := World -> Result A * World.

Definition ret {A} (a : A) : M A := fun w => (Ok a, w).

Definition bind {A B} (c : M A) (k : A -> M B) : M B :=
  fun w => match c w with
           | (Ok a, w') => k a w'
           | (Throw e, w') => (Throw e, w')
           end.

Definition try_catch {A} (c : M A) (h : jsstring -> M A) : M A :=
  fun w => match c w with
           | (Ok a, w') => (Ok a, w')
           | (Throw e, w') => h e w'
           end.

Declare Scope js_scope.
Delimit Scope js_scope with js.
Notation "x <- c ;; k" := (bind c (fun x => k))
  (at level 100, c at next level, right associativity) : js_scope.
Notation "c ;; k" := (bind c (fun _ => k))
  (at level 100, right associativity) : js_scope.
Local Open Scope js_scope.

Definition emit (e : Event) : M unit :=
  fun w => (Ok tt, {| disk := disk w; log := log w ++ [(e, disk w)] |}).

Definition create (file : jsstring) : M unit :=
  fun w => (Ok tt, {| disk := {[ file ]} ∪ disk w; log := log w |}).

Definition unlink (file : jsstring) : M unit :=
  fun w => (Ok tt, {| disk := disk w ∖ {[ file ]}; log := log w |}).

Definition throw {A} (message : jsstring) : M A := fun w => (Throw message, w).

Fixpoint for_of {A} (l : list A) (body : A -> M unit) : M unit :=
  match l with
  | [] => ret tt
  | x :: rest => body x ;; for_of rest body
  end.

Section Handler.

Variable env : Env.

(** [fs.remove]: removes the file; a path that does not exist is not an
    error. *)
Definition fs_remove (file : jsstring) : M unit :=
  emit (EvRemove file) ;;
  match remove_error env file with
  | Some message => throw message
  | None => unlink file
  end.

(** [fs.writeFile] *)
Definition fs_writeFile (file content : jsstring) : M unit :=
  emit (EvWriteFile file content) ;;
  match writeFile_result env with
  | WriteOk => create file
  | WriteErr message created =>
      (if created then create file else ret tt) ;; throw message
  end.

(** [if (p) await fs.remove(p)]: [null] and the empty string are falsy. *)
Definition remove_if_set (p : option jsstring) : M unit :=
  match p with
  | Some (c :: s) => fs_remove (c :: s)
  | _ => ret tt
  end.

(** [cleanup] (lines 105-115) *)
Definition cleanup (uploadedFiles : list File) (listFile mergedFile : option jsstring) : M unit :=
  emit (EvCleanup uploadedFiles listFile mergedFile) ;;
  try_catch
    (for_of uploadedFiles (fun file => fs_remove (path file)) ;;
     remove_if_set listFile ;;
     remove_if_set mergedFile)
    (fun cleanupErr => ret tt).

(** [res.status(status).json(body)] *)
Definition json (status : Z) (body : Body) : M unit :=
  emit (EvJson status body).

(** [res.download(file, name, fn)]: the transfer starts, and [fn] is
    called with [sendErr] once it is complete or has failed. *)
Definition download (file name : jsstring) (fn : option jsstring -> M unit) : M unit :=
  emit (EvDownload file name) ;;
  emit (EvSent (send_result env)) ;;
  fn (send_result env).

(** The FFmpeg command of lines 76-94: [.save(outputPath)] starts the
    tool, which later fires exactly one of 'error' and 'end'. *)
Definition ffmpeg_save (input output : jsstring)
    (on_error : jsstring -> M unit) (on_end : M unit) : M unit :=
  emit (EvFfmpeg input output) ;;
  match ffmpeg_result env with
  | FfError message partial =>
      (if partial then create output else ret tt) ;; on_error message
  | FfEnd => create output ;; on_end
  end.

Definition concatListPath : jsstring :=
  path_join (platform env) (uploadDir env)
    (str "concat_" ++ string_of_int (now_concat env) ++ str ".txt").

Definition outputPath : jsstring :=
  path_join (platform env) (uploadDir env)
    (str "merged_" ++ string_of_int (now_merged env) ++ str ".mp4").

(** What multer hands to the callback of line 49. *)
Inductive Upload :=
  | UploadErr (message : jsstring)
  | UploadDone (files : option (list File)).

(** Lines 61-100, for a [files] array that passed the check of line 56.
    The handlers of the FFmpeg command run after the [try] block has
    been left, so the [catch] clause covers the manifest only. *)
Definition merge (files : list File) : M unit :=
  started <-
    try_catch
      (fs_writeFile concatListPath (listContent files) ;;
       ret true)
      (fun e =>
         try_catch (fs_remove concatListPath) (fun _ => ret tt) ;;
         json 500 {| error := str "Server error"; details := Some e |} ;;
         ret false) ;;
  if started : bool then
    ffmpeg_save concatListPath outputPath
      (fun ffErr =>
         cleanup files (Some concatListPath) None ;;
         json 500 {| error := str "Video merge failed"; details := Some ffErr |})
      (download outputPath (str "merged.mp4")
         (fun sendErr => cleanup files (Some concatListPath) (Some outputPath)))
  else ret tt.

Definition too_few : Body :=
  {| error := str "Please upload at least 2 videos to merge"; details := None |}.

(** The callback of [upload(req, res, ...)] (lines 49-101). *)
Definition handler (up : Upload) : M unit :=
  match up with
  | UploadErr message =>
      json 500 {| error := str "Upload failed"; details := Some message |}
  | UploadDone None => json 400 too_few
  | UploadDone (Some files) =>
      if (length files <? 2)%nat then json 400 too_few
      else merge files
  end.

(** ** What [cleanup] goes through *)

(** The paths [cleanup] goes through, in order: the uploaded files, then
    the list file and the merged file when they are set. *)
Definition if_set (p : option jsstring) : list jsstring :=
  match p with Some (c :: s) => [c :: s] | _ => [] end.

Definition artifacts (uploadedFiles : list File) (listFile mergedFile : option jsstring)
  : list jsstring :=
  map path uploadedFiles ++ if_set listFile ++ if_set mergedFile.

(** What a run of the removals over [l] amounts to: they stop at the
    first one that fails ([remove_all_run] below relates these to the
    loop itself). [attempted] are the paths [fs.remove] is called on,
    [removed] those it removes, [remove_log] what is logged. *)
Fixpoint attempted (l : list jsstring) : list jsstring :=
  match l with
  | [] => []
  | p :: rest =>
      match remove_error env p with
      | Some _ => [p]
      | None => p :: attempted rest
      end
  end.

Fixpoint removed (l : list jsstring) : list jsstring :=
  match l with
  | [] => []
  | p :: rest =>
      match remove_error env p with
      | Some _ => []
      | None => p :: removed rest
      end
  end.

Fixpoint remove_log (d : gset jsstring) (l : list jsstring) : list (Event * gset jsstring) :=
  match l with
  | [] => []
  | p :: rest =>
      (EvRemove p, d) ::
      match remove_error env p with
      | Some _ => []
      | None => remove_log (d ∖ {[ p ]}) rest
      end
  end.

Definition remove_all (l : list jsstring) : M unit := for_of l fs_remove.

Definition removable (p : jsstring) : Prop := remove_error env p = None.

End Handler.

(** The world in which the callback starts: the directory as multer left
    it, nothing logged yet. *)
Definition start (d : gset jsstring) : World := {| disk := d; log := [] |}.

Definition run (env : Env) (up : Upload) (d : gset jsstring) : World :=
  (handler env up (start d)).2.

Definition is_cleanup (e : Event) : bool :=
  match e with EvCleanup _ _ _ => true | _ => false end.

Definition is_remove (e : Event) : bool :=
  match e with EvRemove _ => true | _ => false end.

(** How many times [cleanup] was called. *)
Definition cleanup_calls (w : World) : nat :=
  length (List.filter is_cleanup (events w)).

Definition is_digit (c : char) : Prop := 48 <= c <= 57.

(** ** A deployment used in the examples *)

Definition ex_dir : jsstring := str "/srv/app/uploads".

Definition ex_a : File := stage Posix ex_dir (1700000000001%Z, str "a.mp4").
Definition ex_b : File := stage Posix ex_dir (1700000000002%Z, str "b.mp4").

Definition never_fails : jsstring -> option jsstring := fun _ => None.

Definition fails_on (p : jsstring) : jsstring -> option jsstring :=
  fun q => if bool_decide (q = p) then Some (str "EPERM: operation not permitted") else None.

Definition ex_env (wr : WriteResult) (ff : FfmpegResult) (send : option jsstring)
    (rm : jsstring -> option jsstring) : Env :=
  {| platform := Posix; uploadDir := ex_dir;
     now_concat := 1700000000010; now_merged := 1700000000011;
     writeFile_result := wr; ffmpeg_result := ff; send_result := send;
     remove_error := rm |}.

Definition ex_parts : list (Z * jsstring) :=
  [(1700000000001%Z, str "a.mp4"); (1700000000002%Z, str "b.mp4")].

(** A deployment below a directory with an apostrophe in its name. *)
Definition ex_quoted_dir : jsstring := str "/srv/o'brien/uploads".

Definition ex_quoted_env (ff : FfmpegResult) (send : option jsstring) : Env :=
  {| platform := Posix; uploadDir := ex_quoted_dir;
     now_concat := 1700000000010; now_merged := 1700000000011;
     writeFile_result := WriteOk; ffmpeg_result := ff; send_result := send;
     remove_error := never_fails |}.



(** ** Reading a run *)

(** What the client gets: a JSON body or the start of a download. *)
Definition is_response (e : Event) : bool :=
  match e with EvJson _ _ | EvDownload _ _ => true | _ => false end.

Definition is_ffmpeg (e : Event) : bool :=
  match e with EvFfmpeg _ _ => true | _ => false end.

Definition count_events (f : Event -> bool) (w : World) : nat :=
  length (List.filter f (events w)).

(** The six ways through the callback of lines 49-101, each with the
    world it ends in ([run_outcome] below shows that every run is one of
    them). *)
Inductive Outcome (env : Env) (d : gset jsstring) : Upload -> World -> Prop :=
  | UploadFailed (message : jsstring) :
      Outcome env d (UploadErr message)
        {| disk := d;
           log := [(EvJson 500 {| error := str "Upload failed";
                                  details := Some message |}, d)] |}
  | NoFiles :
      Outcome env d (UploadDone None)
        {| disk := d; log := [(EvJson 400 too_few, d)] |}
  | TooFewFiles (files : list File) :
      (length files < 2)%nat ->
      Outcome env d (UploadDone (Some files))
        {| disk := d; log := [(EvJson 400 too_few, d)] |}
  | WriteFailed (files : list File) (message : jsstring) (created : bool)
      (d1 d2 : gset jsstring) :
      (2 <= length files)%nat ->
      writeFile_result env = WriteErr message created ->
      d1 = (if created then {[ concatListPath env ]} ∪ d else d) ->
      d2 = match remove_error env (concatListPath env) with
           | Some _ => d1
           | None => d1 ∖ {[ concatListPath env ]}
           end ->
      Outcome env d (UploadDone (Some files))
        {| disk := d2;
           log := [(EvWriteFile (concatListPath env) (listContent files), d);
                   (EvRemove (concatListPath env), d1);
                   (EvJson 500 {| error := str "Server error";
                                  details := Some message |}, d2)] |}
  | MergeFailed (files : list File) (message : jsstring) (partial : bool)
      (d2 : gset jsstring) (arts : list jsstring) :
      (2 <= length files)%nat ->
      writeFile_result env = WriteOk ->
      ffmpeg_result env = FfError message partial ->
      d2 = (if partial then {[ outputPath env ]} ∪ ({[ concatListPath env ]} ∪ d)
            else {[ concatListPath env ]} ∪ d) ->
      arts = map path files ++ [concatListPath env] ->
      Outcome env d (UploadDone (Some files))
        {| disk := d2 ∖ list_to_set (removed env arts);
           log := [(EvWriteFile (concatListPath env) (listContent files), d);
                   (EvFfmpeg (concatListPath env) (outputPath env),
                    {[ concatListPath env ]} ∪ d);
                   (EvCleanup files (Some (concatListPath env)) None, d2)]
                  ++ remove_log env d2 arts
                  ++ [(EvJson 500 {| error := str "Video merge failed";
                                     details := Some message |},
                       d2 ∖ list_to_set (removed env arts))] |}
  | Merged (files : list File) (d2 : gset jsstring) (arts : list jsstring) :
      (2 <= length files)%nat ->
      writeFile_result env = WriteOk ->
      ffmpeg_result env = FfEnd ->
      d2 = {[ outputPath env ]} ∪ ({[ concatListPath env ]} ∪ d) ->
      arts = map path files ++ [concatListPath env; outputPath env] ->
      Outcome env d (UploadDone (Some files))
        {| disk := d2 ∖ list_to_set (removed env arts);
           log := [(EvWriteFile (concatListPath env) (listContent files), d);
                   (EvFfmpeg (concatListPath env) (outputPath env),
                    {[ concatListPath env ]} ∪ d);
                   (EvDownload (outputPath env) (str "merged.mp4"), d2);
                   (EvSent (send_result env), d2);
                   (EvCleanup files (Some (concatListPath env))
                      (Some (outputPath env)), d2)]
                  ++ remove_log env d2 arts |}.

(** * Properties *)

(** ** The definitions on concrete inputs *)

Example filename_of_upload :
  filename 1700000000123 (str "my clip(1).mp4") = str "1700000000123_my_clip_1_.mp4".
Proof. reflexivity. Qed.

Example safeName_keeps_underscore : safeName (str "a_b-c.d e") = str "a_b-c.d_e".
Proof. reflexivity. Qed.

Example staged_path_win32 :
  path (stage Win32 (str "C:\app\uploads") (5%Z, str "a.mp4"))
  = str "C:\app\uploads\5_a.mp4".
Proof. reflexivity. Qed.

Example listContent_of_two :
  listContent [ex_a; ex_b]
  = str "file '/srv/app/uploads/1700000000001_a.mp4'" ++ [c_lf] ++
    str "file '/srv/app/uploads/1700000000002_b.mp4'".
Proof. reflexivity. Qed.

Example split_on_lines : split_on c_lf (str "ab" ++ [c_lf] ++ str "c") = [str "ab"; str "c"].
Proof. reflexivity. Qed.

Example upload_error_run :
  events (run (ex_env WriteOk FfEnd None never_fails) (UploadErr (str "Unexpected field")) ∅)
  = [EvJson 500 {| error := str "Upload failed"; details := Some (str "Unexpected field") |}].
Proof. reflexivity. Qed.

Example write_error_run :
  let env := ex_env (WriteErr (str "ENOSPC") true) FfEnd None never_fails in
  let w := run env (UploadDone (Some [ex_a; ex_b])) {[ path ex_a; path ex_b ]} in
  events w
    = [EvWriteFile (concatListPath env) (listContent [ex_a; ex_b]);
       EvRemove (concatListPath env);
       EvJson 500 {| error := str "Server error"; details := Some (str "ENOSPC") |}]
  /\ disk w = {[ path ex_a; path ex_b ]}.
Proof. split; vm_compute; reflexivity. Qed.

Example success_run :
  let env := ex_env WriteOk FfEnd None never_fails in
  let w := run env (UploadDone (Some [ex_a; ex_b])) {[ path ex_a; path ex_b ]} in
  events w
    = [EvWriteFile (concatListPath env) (listContent [ex_a; ex_b]);
       EvFfmpeg (concatListPath env) (outputPath env);
       EvDownload (outputPath env) (str "merged.mp4");
       EvSent None;
       EvCleanup [ex_a; ex_b] (Some (concatListPath env)) (Some (outputPath env));
       EvRemove (path ex_a); EvRemove (path ex_b);
       EvRemove (concatListPath env); EvRemove (outputPath env)]
  /\ disk w = ∅.
Proof. split; vm_compute; reflexivity. Qed.

(** ** Decimal rendering *)

Lemma digits_are_digits (u : Decimal.uint) : Forall is_digit (digits u).
Proof.
  induction u; simpl; constructor; try assumption; unfold is_digit; lia.
Qed.

Lemma digits_inj (u v : Decimal.uint) : digits u = digits v -> u = v.
Proof.
  revert v; induction u; intros v; destruct v; simpl; intros H;
    try discriminate; try reflexivity;
    injection H as H; f_equal; apply IHu; exact H.
Qed.

Lemma string_of_int_chars (z : Z) :
  Forall (fun c => c = c_minus \/ is_digit c) (string_of_int z).
Proof.
  unfold string_of_int.
  destruct (Z.to_int z) as [u|u].
  - eapply Forall_impl; [apply digits_are_digits | intros c Hc; right; exact Hc].
  - constructor; [left; reflexivity |].
    eapply Forall_impl; [apply digits_are_digits | intros c Hc; right; exact Hc].
Qed.

Lemma string_of_int_inj (z1 z2 : Z) :
  string_of_int z1 = string_of_int z2 -> z1 = z2.
Proof.
  unfold string_of_int. intros H.
  apply DecimalZ.to_int_inj.
  destruct (Z.to_int z1) as [u|u], (Z.to_int z2) as [v|v].
  - f_equal. apply digits_inj, H.
  - exfalso. pose proof (digits_are_digits u) as Hu. rewrite H in Hu.
    inversion Hu as [|? ? Hd _]. unfold is_digit, c_minus in Hd. lia.
  - exfalso. pose proof (digits_are_digits v) as Hv. rewrite <- H in Hv.
    inversion Hv as [|? ? Hd _]. unfold is_digit, c_minus in Hd. lia.
  - injection H as H. f_equal. apply digits_inj, H.
Qed.

(** ** Characters of a staged name *)

(** The class of the specification is the class the regular expression
    negates, with the underscore added. *)
Lemma in_spec_class_eq (c : char) :
  in_spec_class c = in_class c || (c =? c_underscore).
Proof.
  unfold in_spec_class, in_class, c_dot, c_minus, c_underscore.
  destruct (65 <=? c), (c <=? 90), (97 <=? c), (c <=? 122), (48 <=? c), (c <=? 57),
    (c =? 46), (c =? 95), (c =? 45); reflexivity.
Qed.

Lemma safeName_chars (originalname : jsstring) :
  Forall (fun c => in_spec_class c = true) (safeName originalname).
Proof.
  unfold safeName. induction originalname as [|c s IH]; simpl; constructor; auto.
  rewrite in_spec_class_eq. destruct (in_class c) eqn:E; [rewrite E|]; reflexivity.
Qed.

Lemma string_of_int_spec_class (z : Z) :
  Forall (fun c => in_spec_class c = true) (string_of_int z).
Proof.
  eapply Forall_impl; [apply string_of_int_chars |].
  intros c [-> | Hd]; [reflexivity |].
  unfold is_digit in Hd. rewrite in_spec_class_eq. unfold in_class.
  replace ((48 <=? c) && (c <=? 57)) with true; [now rewrite !orb_true_r |].
  symmetry. apply andb_true_iff. split; apply N.leb_le; lia.
Qed.

Lemma filename_chars (ts : Z) (originalname : jsstring) :
  Forall (fun c => in_spec_class c = true) (filename ts originalname).
Proof.
  unfold filename. apply Forall_app. split; [apply string_of_int_spec_class |].
  apply Forall_app. split; [repeat constructor | apply safeName_chars].
Qed.

Lemma not_in_filename (c : char) (ts : Z) (originalname : jsstring) :
  in_spec_class c = false -> c ∉ filename ts originalname.
Proof.
  intros Hc Hin.
  pose proof (filename_chars ts originalname) as H.
  rewrite Forall_forall in H. specialize (H c Hin). congruence.
Qed.

Lemma elem_of_slashes (c : char) (s : jsstring) :
  c ∈ slashes s -> c = c_slash \/ (c ∈ s /\ c <> c_backslash).
Proof.
  unfold slashes. intros H. apply list_elem_of_fmap in H as (x & -> & Hx).
  destruct (N.eqb_spec x c_backslash) as [->|Hne]; [left; reflexivity |].
  right. split; assumption.
Qed.

Lemma no_backslash_in_slashes (s : jsstring) : c_backslash ∉ slashes s.
Proof.
  intros H. apply elem_of_slashes in H as [H | [_ H]]; [discriminate | congruence].
Qed.


(** A character that is neither in the directory nor a separator nor
    allowed in a name occurs in no staged path. *)
Lemma not_in_staged_path (c : char) (p : Platform) (dir : jsstring) (part : Z * jsstring) :
  c ∉ dir -> c <> c_slash -> c <> c_backslash -> in_spec_class c = false ->
  c ∉ path (stage p dir part).
Proof.
  intros Hd Hs Hb Hc. simpl. unfold path_join.
  rewrite elem_of_app, elem_of_cons.
  intros [H | [H | H]].
  - exact (Hd H).
  - destruct p; simpl in H; congruence.
  - exact (not_in_filename c _ _ Hc H).
Qed.

(** ** Sanitized names *)

(** C9. The staged name is the prefix [`${ts}_`] followed by the
    sanitized original name; the sanitized name has the length of the
    original, all its characters are in [A-Za-z0-9._-], a character of
    that class stays where it was and any other becomes an underscore. *)
Theorem safeName_sanitizes (ts : Z) (originalname : jsstring) :
  filename ts originalname
    = (string_of_int ts ++ str "_") ++ safeName originalname
  /\ length (safeName originalname) = length originalname
  /\ (forall c, c ∈ safeName originalname -> in_spec_class c = true)
  /\ (forall (i : nat) (c : char), originalname !! i = Some c ->
        safeName originalname !! i
          = Some (if in_spec_class c then c else c_underscore)).
Proof.
  split; [unfold filename; now rewrite <- app_assoc |].
  split; [unfold safeName; apply length_map |].
  split.
  - intros c Hc. pose proof (safeName_chars originalname) as H.
    rewrite Forall_forall in H. exact (H c Hc).
  - intros i c Hi. unfold safeName.
    etransitivity;
      [apply (list_lookup_fmap (fun c => if in_class c then c else c_underscore)) |].
    rewrite Hi. simpl.
    f_equal. rewrite in_spec_class_eq.
    destruct (in_class c); [reflexivity |]. simpl.
    destruct (N.eqb_spec c c_underscore) as [->|_]; reflexivity.
Qed.

(** ** Distinct names *)

Lemma app_cons_inj_l {A} (x : A) (l1 l2 r1 r2 : list A) :
  x ∉ l1 -> x ∉ l2 -> l1 ++ x :: r1 = l2 ++ x :: r2 -> l1 = l2.
Proof.
  revert l2. induction l1 as [|a l1 IH]; intros [|b l2] H1 H2 E; simpl in E.
  - reflexivity.
  - injection E as -> _. exfalso. apply H2. left.
  - injection E as -> _. exfalso. apply H1. left.
  - injection E as -> E. f_equal.
    apply not_elem_of_cons in H1 as [_ H1]. apply not_elem_of_cons in H2 as [_ H2].
    exact (IH l2 H1 H2 E).
Qed.

Lemma string_of_int_no_underscore (z : Z) : c_underscore ∉ string_of_int z.
Proof.
  intros H. pose proof (string_of_int_chars z) as F.
  rewrite Forall_forall in F. destruct (F _ H) as [E | D].
  - discriminate E.
  - unfold is_digit, c_underscore in D. lia.
Qed.

Lemma filename_inj_ts (ts1 ts2 : Z) (n1 n2 : jsstring) :
  filename ts1 n1 = filename ts2 n2 -> ts1 = ts2.
Proof.
  unfold filename. simpl. intros E.
  apply string_of_int_inj.
  eapply app_cons_inj_l; [| | exact E]; apply string_of_int_no_underscore.
Qed.

Lemma path_join_inj (p : Platform) (dir n1 n2 : jsstring) :
  path_join p dir n1 = path_join p dir n2 -> n1 = n2.
Proof.
  unfold path_join. intros E. apply app_inv_head in E. now injection E.
Qed.

Lemma stamped_name_inj (pre post : jsstring) (t1 t2 : Z) :
  pre ++ string_of_int t1 ++ post = pre ++ string_of_int t2 ++ post -> t1 = t2.
Proof.
  intros E. apply app_inv_head, app_inv_tail in E. apply string_of_int_inj, E.
Qed.

(** C8. When the clock gives distinct readings to distinct calls, two
    staged files never get the same name or path, whatever their
    original names, and two requests never get the same output path (nor
    the same manifest path). *)
Theorem names_do_not_collide (p : Platform) (dir : jsstring) :
  (forall (ts1 ts2 : Z) (n1 n2 : jsstring), ts1 <> ts2 ->
      filename ts1 n1 <> filename ts2 n2
      /\ path (stage p dir (ts1, n1)) <> path (stage p dir (ts2, n2)))
  /\ (forall env1 env2 : Env,
        platform env1 = p -> platform env2 = p ->
        uploadDir env1 = dir -> uploadDir env2 = dir ->
        (now_merged env1 <> now_merged env2 -> outputPath env1 <> outputPath env2)
        /\ (now_concat env1 <> now_concat env2 ->
              concatListPath env1 <> concatListPath env2)).
Proof.
  split.
  - intros ts1 ts2 n1 n2 Hts. split.
    + intros E. apply Hts. exact (filename_inj_ts _ _ _ _ E).
    + simpl. intros E. apply path_join_inj in E.
      apply Hts. exact (filename_inj_ts _ _ _ _ E).
  - intros env1 env2 P1 P2 D1 D2. unfold outputPath, concatListPath.
    rewrite P1, P2, D1, D2. split; intros Hne E; apply Hne;
      apply path_join_inj in E; exact (stamped_name_inj _ _ _ _ E).
Qed.

(** ** Lines of the concat list *)






Lemma not_in_slashes (c : char) (s : jsstring) :
  c <> c_slash -> c ∉ s -> c ∉ slashes s.
Proof.
  intros Hc Hs H. apply elem_of_slashes in H as [H | [H _]]; [exact (Hc H) | exact (Hs H)].
Qed.






(** ** Removal of a sequence of paths *)

Lemma bind_ok {A B} (c : M A) (k : A -> M B) (w w' : World) (a : A) :
  c w = (Ok a, w') -> bind c k w = k a w'.
Proof. intros E. unfold bind. now rewrite E. Qed.

Lemma bind_throw {A B} (c : M A) (k : A -> M B) (w w' : World) (e : jsstring) :
  c w = (Throw e, w') -> bind c k w = (Throw e, w').
Proof. intros E. unfold bind. now rewrite E. Qed.

Lemma bind_ext {A B} (c c' : M A) (k k' : A -> M B) (w : World) :
  (forall w0, c w0 = c' w0) -> (forall a w0, k a w0 = k' a w0) ->
  bind c k w = bind c' k' w.
Proof.
  intros Hc Hk. unfold bind. rewrite Hc.
  destruct (c' w) as [[a|e] w']; [apply Hk | reflexivity].
Qed.

Lemma bind_assoc {A B C} (c : M A) (k : A -> M B) (k2 : B -> M C) (w : World) :
  bind (bind c k) k2 w = bind c (fun a => bind (k a) k2) w.
Proof. unfold bind. destruct (c w) as [[a|e] w']; reflexivity. Qed.

Lemma bind_ret_tt (c : M unit) (w : World) : bind c (fun _ => ret tt) w = c w.
Proof. unfold bind, ret. destruct (c w) as [[[]|e] w']; reflexivity. Qed.

Lemma for_of_app {A} (l1 l2 : list A) (body : A -> M unit) (w : World) :
  for_of (l1 ++ l2) body w = bind (for_of l1 body) (fun _ => for_of l2 body) w.
Proof.
  revert w. induction l1 as [|x l1 IH]; intros w; [reflexivity |].
  change (bind (body x) (fun _ => for_of (l1 ++ l2) body) w
          = bind (bind (body x) (fun _ => for_of l1 body)) (fun _ => for_of l2 body) w).
  rewrite bind_assoc. apply bind_ext; [reflexivity | intros _ w0; apply IH].
Qed.

Lemma for_of_map {A B} (f : A -> B) (l : list A) (body : B -> M unit) (w : World) :
  for_of (map f l) body w = for_of l (fun x => body (f x)) w.
Proof.
  revert w. induction l as [|x l IH]; intros w; [reflexivity |].
  simpl. apply bind_ext; [reflexivity | intros _ w0; apply IH].
Qed.

Section Removal.

Variable env : Env.

Lemma fs_remove_ok (p : jsstring) (w : World) :
  remove_error env p = None ->
  fs_remove env p w
  = (Ok tt, {| disk := disk w ∖ {[ p ]}; log := log w ++ [(EvRemove p, disk w)] |}).
Proof. intros E. unfold fs_remove, bind, emit, unlink. rewrite E. reflexivity. Qed.

Lemma fs_remove_fail (p message : jsstring) (w : World) :
  remove_error env p = Some message ->
  fs_remove env p w
  = (Throw message, {| disk := disk w; log := log w ++ [(EvRemove p, disk w)] |}).
Proof. intros E. unfold fs_remove, bind, emit, throw. rewrite E. reflexivity. Qed.

Lemma remove_all_run (l : list jsstring) (w : World) :
  exists r,
    remove_all env l w
    = (r, {| disk := disk w ∖ list_to_set (removed env l);
             log := log w ++ remove_log env (disk w) l |}).
Proof.
  revert w. induction l as [|p rest IH]; intros [d lg].
  - exists (Ok tt). unfold remove_all, ret. simpl.
    now rewrite difference_empty_L, app_nil_r.
  - change (remove_all env (p :: rest))
      with (bind (fs_remove env p) (fun _ => remove_all env rest)).
    simpl. destruct (remove_error env p) as [msg|] eqn:E.
    + exists (Throw msg). rewrite (bind_throw _ _ _ _ _ (fs_remove_fail p msg _ E)).
      simpl. now rewrite difference_empty_L.
    + rewrite (bind_ok _ _ _ _ _ (fs_remove_ok p _ E)). simpl.
      destruct (IH {| disk := d ∖ {[ p ]}; log := lg ++ [(EvRemove p, d)] |}) as [r Hr].
      exists r. rewrite Hr. simpl.
      rewrite <- app_assoc. simpl.
      now rewrite difference_difference_l_L.
Qed.

Lemma remove_log_events (d : gset jsstring) (l : list jsstring) :
  map fst (remove_log env d l) = map EvRemove (attempted env l).
Proof.
  revert d. induction l as [|p rest IH]; intros d; [reflexivity |].
  simpl. destruct (remove_error env p); simpl; [reflexivity |].
  f_equal. apply IH.
Qed.

Lemma remove_if_set_for_of (p : option jsstring) (w : World) :
  remove_if_set env p w = remove_all env (if_set p) w.
Proof.
  destruct p as [[|c s]|]; try reflexivity.
  unfold remove_all. simpl. symmetry. apply bind_ret_tt.
Qed.

Lemma cleanup_body (uploadedFiles : list File) (listFile mergedFile : option jsstring)
    (w : World) :
  bind (for_of uploadedFiles (fun file => fs_remove env (path file)))
       (fun _ => bind (remove_if_set env listFile)
                      (fun _ => remove_if_set env mergedFile)) w
  = remove_all env (artifacts uploadedFiles listFile mergedFile) w.
Proof.
  unfold artifacts, remove_all. rewrite for_of_app.
  apply bind_ext; [intros w0; symmetry; apply for_of_map |].
  intros _ w0. rewrite for_of_app.
  apply bind_ext; intros; apply remove_if_set_for_of.
Qed.

(** One call of [cleanup]: it never throws, logs itself, then the
    removals it attempts. *)
Lemma cleanup_run (uploadedFiles : list File) (listFile mergedFile : option jsstring)
    (w : World) :
  let arts := artifacts uploadedFiles listFile mergedFile in
  cleanup env uploadedFiles listFile mergedFile w
  = (Ok tt,
     {| disk := disk w ∖ list_to_set (removed env arts);
        log := log w ++ (EvCleanup uploadedFiles listFile mergedFile, disk w)
                     :: remove_log env (disk w) arts |}).
Proof.
  intros arts. unfold cleanup. unfold bind at 1. unfold emit at 1. simpl.
  unfold try_catch. rewrite cleanup_body. fold arts.
  destruct (remove_all_run arts
              {| disk := disk w;
                 log := log w ++ [(EvCleanup uploadedFiles listFile mergedFile, disk w)] |})
    as [r Hr].
  rewrite Hr. simpl. rewrite <- app_assoc. simpl.
  destruct r as [[]|m]; reflexivity.
Qed.

End Removal.

(** ** The runs of the handler *)

Section Runs.

Variable env : Env.

Lemma if_set_path_join (p : Platform) (dir name : jsstring) :
  if_set (Some (path_join p dir name)) = [path_join p dir name].
Proof. unfold path_join. destruct dir; reflexivity. Qed.

Lemma artifacts_on_error (files : list File) :
  artifacts files (Some (concatListPath env)) None
  = map path files ++ [concatListPath env].
Proof.
  unfold artifacts, concatListPath. rewrite if_set_path_join. simpl. reflexivity.
Qed.

Lemma artifacts_on_end (files : list File) :
  artifacts files (Some (concatListPath env)) (Some (outputPath env))
  = map path files ++ [concatListPath env; outputPath env].
Proof.
  unfold artifacts, concatListPath, outputPath. rewrite !if_set_path_join. reflexivity.
Qed.

(** The manifest could not be written: the [catch] clause. *)
Lemma merge_write_failed (files : list File) (message : jsstring) (created : bool)
    (w : World) :
  writeFile_result env = WriteErr message created ->
  let d1 := if created then {[ concatListPath env ]} ∪ disk w else disk w in
  merge env files w
  = (Ok tt,
     {| disk := match remove_error env (concatListPath env) with
                | Some _ => d1
                | None => d1 ∖ {[ concatListPath env ]}
                end;
        log := log w ++
          [(EvWriteFile (concatListPath env) (listContent files), disk w);
           (EvRemove (concatListPath env), d1);
           (EvJson 500 {| error := str "Server error"; details := Some message |},
            match remove_error env (concatListPath env) with
            | Some _ => d1
            | None => d1 ∖ {[ concatListPath env ]}
            end)] |}).
Proof.
  intros E d1. unfold merge, fs_writeFile, fs_remove, json, try_catch, bind, emit,
    create, unlink, throw, ret. rewrite E.
  destruct created, (remove_error env (concatListPath env)); simpl;
    rewrite <- !app_assoc; reflexivity.
Qed.

(** FFmpeg reported an error: the 'error' handler. *)
Lemma merge_ffmpeg_failed (files : list File) (message : jsstring) (partial : bool)
    (w : World) :
  writeFile_result env = WriteOk ->
  ffmpeg_result env = FfError message partial ->
  let d1 := {[ concatListPath env ]} ∪ disk w in
  let d2 := if partial then {[ outputPath env ]} ∪ d1 else d1 in
  let arts := map path files ++ [concatListPath env] in
  let d3 := d2 ∖ list_to_set (removed env arts) in
  merge env files w
  = (Ok tt,
     {| disk := d3;
        log := log w ++
          [(EvWriteFile (concatListPath env) (listContent files), disk w);
           (EvFfmpeg (concatListPath env) (outputPath env), d1);
           (EvCleanup files (Some (concatListPath env)) None, d2)]
          ++ remove_log env d2 arts
          ++ [(EvJson 500 {| error := str "Video merge failed";
                             details := Some message |}, d3)] |}).
Proof.
  intros E1 E2 d1 d2 arts d3.
  unfold merge, fs_writeFile, ffmpeg_save, json, try_catch.
  unfold bind at 1 2 3. unfold emit at 1, create at 1, ret at 1. rewrite E1. simpl.
  unfold bind at 1 2. unfold emit at 1. rewrite E2. simpl.
  unfold bind at 1.
  assert (C : (if partial then create (outputPath env) else ret tt)
                {| disk := d1;
                   log := (log w ++ [(EvWriteFile (concatListPath env) (listContent files), disk w)])
                          ++ [(EvFfmpeg (concatListPath env) (outputPath env), d1)] |}
              = (Ok tt, {| disk := d2;
                   log := (log w ++ [(EvWriteFile (concatListPath env) (listContent files), disk w)])
                          ++ [(EvFfmpeg (concatListPath env) (outputPath env), d1)] |})).
  { unfold d2. destruct partial; reflexivity. }
  fold d1. rewrite C. unfold bind at 1. rewrite cleanup_run. simpl.
  rewrite artifacts_on_error. fold arts. fold d3. unfold emit. simpl.
  rewrite <- ?app_assoc. simpl. rewrite <- ?app_assoc. reflexivity.
Qed.

(** FFmpeg finished: the 'end' handler and the callback of the download. *)
Lemma merge_ffmpeg_ended (files : list File) (w : World) :
  writeFile_result env = WriteOk ->
  ffmpeg_result env = FfEnd ->
  let d1 := {[ concatListPath env ]} ∪ disk w in
  let d2 := {[ outputPath env ]} ∪ d1 in
  let arts := map path files ++ [concatListPath env; outputPath env] in
  merge env files w
  = (Ok tt,
     {| disk := d2 ∖ list_to_set (removed env arts);
        log := log w ++
          [(EvWriteFile (concatListPath env) (listContent files), disk w);
           (EvFfmpeg (concatListPath env) (outputPath env), d1);
           (EvDownload (outputPath env) (str "merged.mp4"), d2);
           (EvSent (send_result env), d2);
           (EvCleanup files (Some (concatListPath env)) (Some (outputPath env)), d2)]
          ++ remove_log env d2 arts |}).
Proof.
  intros E1 E2 d1 d2 arts.
  unfold merge, fs_writeFile, ffmpeg_save, download, try_catch.
  unfold bind at 1 2 3. unfold emit at 1, create at 1, ret at 1. rewrite E1. simpl.
  unfold bind, emit, create. rewrite E2. simpl.
  rewrite cleanup_run. simpl. rewrite artifacts_on_end.
  rewrite <- ?app_assoc. reflexivity.
Qed.

End Runs.

(** ** Cleanup *)

Section CleanupFacts.

Variable env : Env.

Lemma all_removable (l : list jsstring) :
  Forall (removable env) l -> attempted env l = l /\ removed env l = l.
Proof.
  induction 1 as [|p l Hp _ [IHa IHr]]; [split; reflexivity |].
  simpl. unfold removable in Hp. rewrite Hp, IHa, IHr. split; reflexivity.
Qed.

Lemma first_failure (pre post : list jsstring) (p : jsstring) :
  Forall (removable env) pre -> ~ removable env p ->
  attempted env (pre ++ p :: post) = pre ++ [p]
  /\ removed env (pre ++ p :: post) = pre.
Proof.
  intros Hpre Hp. induction Hpre as [|q pre Hq _ [IHa IHr]]; simpl.
  - unfold removable in Hp. destruct (remove_error env p); [split; reflexivity | congruence].
  - unfold removable in Hq. rewrite Hq, IHa, IHr. split; reflexivity.
Qed.

Lemma removed_subset (l : list jsstring) (p : jsstring) :
  p ∈ removed env l -> p ∈ l.
Proof.
  induction l as [|q l IH]; simpl; [trivial |].
  destruct (remove_error env q); [intros H; inversion H |].
  rewrite !elem_of_cons. intros [-> | H]; [left; reflexivity | right; exact (IH H)].
Qed.

Lemma cleanup_events (uploadedFiles : list File) (listFile mergedFile : option jsstring)
    (w : World) :
  events (cleanup env uploadedFiles listFile mergedFile w).2
  = events w ++ EvCleanup uploadedFiles listFile mergedFile
       :: map EvRemove (attempted env (artifacts uploadedFiles listFile mergedFile)).
Proof.
  rewrite cleanup_run. unfold events. simpl.
  rewrite map_app. simpl. now rewrite remove_log_events.
Qed.

End CleanupFacts.

(** C6, as the code has it. [cleanup] never passes a removal failure on
    to its caller. It goes through the uploaded files in order, then the
    list file, then the merged file; when no removal fails every one of
    them is attempted and removed, and when one fails the later ones are
    not attempted and stay. A path that does not exist is no failure, and
    a second call leaves the directory as the first one left it. *)
Theorem cleanup_stops_at_first_failure (env : Env) (uploadedFiles : list File)
    (listFile mergedFile : option jsstring) (w : World) :
  let arts := artifacts uploadedFiles listFile mergedFile in
  let out := cleanup env uploadedFiles listFile mergedFile w in
  out.1 = Ok tt
  /\ (Forall (removable env) arts ->
        events out.2
          = events w ++ EvCleanup uploadedFiles listFile mergedFile :: map EvRemove arts
        /\ disk out.2 = disk w ∖ list_to_set arts)
  /\ (forall (pre post : list jsstring) (p : jsstring),
        arts = pre ++ p :: post -> Forall (removable env) pre -> ~ removable env p ->
        events out.2
          = events w ++ EvCleanup uploadedFiles listFile mergedFile
              :: map EvRemove (pre ++ [p])
        /\ disk out.2 = disk w ∖ list_to_set pre)
  /\ disk (cleanup env uploadedFiles listFile mergedFile out.2).2 = disk out.2.
Proof.
  intros arts out. split; [unfold out; now rewrite cleanup_run |].
  split; [| split].
  - intros Hall. destruct (all_removable env arts Hall) as [Ha Hr].
    unfold out. rewrite cleanup_events. fold arts. rewrite Ha.
    rewrite cleanup_run. simpl. fold arts. now rewrite Hr.
  - intros pre post p E Hpre Hp.
    destruct (first_failure env pre post p Hpre Hp) as [Ha Hr].
    unfold out. rewrite cleanup_events. fold arts. rewrite E, Ha.
    rewrite cleanup_run. simpl. fold arts. now rewrite E, Hr.
  - unfold out. rewrite !cleanup_run. simpl. fold arts.
    apply set_eq. intros x. rewrite !elem_of_difference. tauto.
Qed.

(** ** Requests that are turned down *)

(** C10. When [req.files] is missing altogether the handler does not
    fault: it sends the 400 response of a request with too few files,
    and nothing else happens. *)
Theorem missing_files_rejected (env : Env) (w : World) (file : File) :
  handler env (UploadDone None) w
    = (Ok tt, {| disk := disk w; log := log w ++ [(EvJson 400 (too_few), disk w)] |})
  /\ handler env (UploadDone None) w = handler env (UploadDone (Some [])) w
  /\ handler env (UploadDone None) w = handler env (UploadDone (Some [file])) w.
Proof. repeat split. Qed.

(** C3, as the code has it. A request with fewer than two files gets
    the status 400 and the JSON body
    [{error: "Please upload at least 2 videos to merge"}], which has no
    [details] member; nothing else is sent. *)
Theorem too_few_files_rejected (env : Env) (files : list File) (d : gset jsstring) :
  (length files < 2)%nat ->
  events (run env (UploadDone (Some files)) d)
  = [EvJson 400 {| error := str "Please upload at least 2 videos to merge";
                   details := None |}].
Proof.
  intros H. unfold run, handler.
  destruct (Nat.ltb_spec (length files) 2) as [_|H']; [reflexivity | lia].
Qed.

(** ** Requests that reach the merge *)

Lemma run_merge (env : Env) (files : list File) (d : gset jsstring) :
  (2 <= length files)%nat ->
  run env (UploadDone (Some files)) d = (merge env files (start d)).2.
Proof.
  intros H. unfold run, handler.
  destruct (Nat.ltb_spec (length files) 2) as [H'|_]; [lia | reflexivity].
Qed.

Lemma no_cleanup_among_removals (env : Env) (d : gset jsstring) (l : list jsstring) :
  List.filter is_cleanup (map fst (remove_log env d l)) = [].
Proof.
  rewrite remove_log_events. induction (attempted env l); [reflexivity | exact IHl0].
Qed.

Lemma removals_are_removals (env : Env) (d : gset jsstring) (l : list jsstring) :
  Forall (fun entry => is_remove entry.1 = true) (remove_log env d l).
Proof.
  revert d. induction l as [|p l IH]; intros d; simpl; [constructor |].
  constructor; [reflexivity |].
  destruct (remove_error env p); [constructor | apply IH].
Qed.

(** How often [cleanup] runs, for every request: once when FFmpeg was
    started, not at all otherwise. *)
Lemma cleanup_calls_run (env : Env) (up : Upload) (d : gset jsstring) :
  cleanup_calls (run env up d)
  = match up with
    | UploadDone (Some files) =>
        if (length files <? 2)%nat then 0%nat
        else match writeFile_result env with
             | WriteOk => 1%nat
             | WriteErr _ _ => 0%nat
             end
    | _ => 0%nat
    end.
Proof.
  destruct up as [message | [files|]]; try reflexivity.
  destruct (Nat.ltb_spec (length files) 2) as [H|H].
  - unfold run, handler.
    destruct (Nat.ltb_spec (length files) 2) as [_|H']; [reflexivity | lia].
  - rewrite (run_merge env files d H). unfold cleanup_calls, events.
    destruct (writeFile_result env) as [|message created] eqn:E1.
    + destruct (ffmpeg_result env) as [|message partial] eqn:E2.
      * rewrite (merge_ffmpeg_ended env files (start d) E1 E2). simpl.
        now rewrite no_cleanup_among_removals.
      * rewrite (merge_ffmpeg_failed env files message partial (start d) E1 E2). simpl.
        rewrite map_app, List.filter_app, no_cleanup_among_removals. reflexivity.
    + rewrite (merge_write_failed env files message created (start d) E1). reflexivity.
Qed.

(** The names the handler makes for the list and the output are no
    staged names. *)
Lemma stamped_not_staged (c : char) (rest : jsstring) (ts : Z) (name : jsstring) :
  97 <= c <= 122 -> c :: rest <> filename ts name.
Proof.
  intros Hc E. unfold filename in E.
  pose proof (string_of_int_chars ts) as F.
  destruct (string_of_int ts) as [|x s].
  - simpl in E. injection E as -> _. unfold c_underscore in Hc. lia.
  - simpl in E. injection E as -> _. inversion F as [|? ? [Hx|Hx] _]; subst.
    + unfold c_minus in Hc. lia.
    + unfold is_digit in Hx. lia.
Qed.

Lemma outputPath_not_staged (env : Env) (part : Z * jsstring) :
  outputPath env <> path (stage (platform env) (uploadDir env) part).
Proof.
  unfold outputPath. simpl. intros E. apply path_join_inj in E.
  revert E. apply stamped_not_staged. lia.
Qed.

Lemma outputPath_not_concatListPath (env : Env) : outputPath env <> concatListPath env.
Proof.
  unfold outputPath, concatListPath. intros E. apply path_join_inj in E. discriminate E.
Qed.

(** C4. FFmpeg fails after it has begun to write the output, for a
    request with at least two staged files: the handler answers 500
    with FFmpeg's message as [details] after one call of [cleanup], but
    that call is given [null] for the merged file, so the removal of the
    output is never attempted and the partial output stays in the upload
    directory. *)
Theorem failed_merge_leaves_output (env : Env) (parts : list (Z * jsstring))
    (d : gset jsstring) (message : jsstring) :
  let files := map (stage (platform env) (uploadDir env)) parts in
  let w := run env (UploadDone (Some files)) d in
  (2 <= length parts)%nat ->
  writeFile_result env = WriteOk ->
  ffmpeg_result env = FfError message true ->
  last (events w)
    = Some (EvJson 500 {| error := str "Video merge failed"; details := Some message |})
  /\ cleanup_calls w = 1%nat
  /\ (EvRemove (outputPath env) ∉ events w)
  /\ outputPath env ∈ disk w.
Proof.
  intros files w HN E1 E2.
  assert (HF : (2 <= length files)%nat) by (unfold files; now rewrite length_map).
  assert (Hout : outputPath env ∉ map path files ++ [concatListPath env]).
  { rewrite elem_of_app. intros [H | H].
    - unfold files in H. apply list_elem_of_fmap in H as (f & Hp & Hf).
      apply list_elem_of_fmap in Hf as (part & -> & _).
      exact (outputPath_not_staged env part Hp).
    - apply list_elem_of_singleton in H. exact (outputPath_not_concatListPath env H). }
  split; [| split; [| split]].
  - unfold w. rewrite (run_merge env files d HF).
    rewrite (merge_ffmpeg_failed env files message true (start d) E1 E2).
    unfold events. simpl. rewrite map_app. simpl.
    rewrite app_comm_cons. apply last_snoc.
  - unfold w. rewrite cleanup_calls_run.
    destruct (Nat.ltb_spec (length files) 2) as [H'|_]; [lia |]. now rewrite E1.
  - unfold w. rewrite (run_merge env files d HF).
    rewrite (merge_ffmpeg_failed env files message true (start d) E1 E2).
    unfold events. simpl. rewrite map_app, remove_log_events. simpl.
    rewrite !not_elem_of_cons, not_elem_of_app, not_elem_of_cons.
    repeat split; try discriminate; [| apply not_elem_of_nil].
    intros H. apply list_elem_of_fmap in H as (q & Hq & Hin).
    injection Hq as <-. apply Hout.
    clear - Hin. revert Hin. generalize (map path files ++ [concatListPath env]).
    induction l as [|x l IH]; simpl; [trivial |].
    destruct (remove_error env x); rewrite !elem_of_cons.
    + intros [-> | H]; [now left | inversion H].
    + intros [-> | H]; [now left | right; exact (IH H)].
  - unfold w. rewrite (run_merge env files d HF).
    rewrite (merge_ffmpeg_failed env files message true (start d) E1 E2). simpl.
    apply elem_of_difference. split; [apply elem_of_union_l; now apply elem_of_singleton_2 |].
    intros H. apply elem_of_list_to_set in H. apply removed_subset in H. exact (Hout H).
Qed.

(** C7. When the manifest is written and FFmpeg finishes, the response
    is the download of the output file under the name [merged.mp4]; the
    output file is in the upload directory when the transfer starts and
    when it is over, whether it succeeded or failed; [cleanup] is called
    after that, and every removal comes after that call. *)
Theorem cleanup_follows_download (env : Env) (files : list File) (d : gset jsstring) :
  (2 <= length files)%nat ->
  writeFile_result env = WriteOk ->
  ffmpeg_result env = FfEnd ->
  exists (d2 : gset jsstring) (removals : list (Event * gset jsstring)),
    log (run env (UploadDone (Some files)) d)
    = [(EvWriteFile (concatListPath env) (listContent files), d);
       (EvFfmpeg (concatListPath env) (outputPath env), {[ concatListPath env ]} ∪ d);
       (EvDownload (outputPath env) (str "merged.mp4"), d2);
       (EvSent (send_result env), d2);
       (EvCleanup files (Some (concatListPath env)) (Some (outputPath env)), d2)]
      ++ removals
    /\ outputPath env ∈ d2
    /\ Forall (fun entry => is_remove entry.1 = true) removals.
Proof.
  intros HN E1 E2.
  exists ({[ outputPath env ]} ∪ ({[ concatListPath env ]} ∪ d)).
  exists (remove_log env ({[ outputPath env ]} ∪ ({[ concatListPath env ]} ∪ d))
            (map path files ++ [concatListPath env; outputPath env])).
  split; [| split].
  - rewrite (run_merge env files d HN).
    rewrite (merge_ffmpeg_ended env files (start d) E1 E2). reflexivity.
  - apply elem_of_union_l. now apply elem_of_singleton_2.
  - apply removals_are_removals.
Qed.

(** With the list written, the first two things a request with at least
    two files does are the write and the start of FFmpeg. *)
Lemma merge_starts_ffmpeg (env : Env) (files : list File) (d : gset jsstring) :
  (2 <= length files)%nat ->
  writeFile_result env = WriteOk ->
  exists rest,
    events (run env (UploadDone (Some files)) d)
    = EvWriteFile (concatListPath env) (listContent files)
        :: EvFfmpeg (concatListPath env) (outputPath env) :: rest.
Proof.
  intros HF E1. rewrite (run_merge env files d HF). unfold events.
  destruct (ffmpeg_result env) as [|message partial] eqn:E2.
  - rewrite (merge_ffmpeg_ended env files (start d) E1 E2). simpl. eauto.
  - rewrite (merge_ffmpeg_failed env files message partial (start d) E1 E2).
    simpl. eauto.
Qed.

(** C2, as the code has it. The handler checks no path and has no
    error for an unsafe one: for every request with at least two files
    the first thing it does is to write the concat list of the staged
    paths as they are, and when that write succeeds the next thing it
    does is to start FFmpeg on the list. Staging never puts a single
    quote into a name, so when the path of the upload directory has
    none, no path written between the quotes of an entry has one. *)
Theorem manifest_written_unchecked (env : Env) (parts : list (Z * jsstring))
    (d : gset jsstring) :
  let files := map (stage (platform env) (uploadDir env)) parts in
  (2 <= length parts)%nat ->
  (exists rest,
     events (run env (UploadDone (Some files)) d)
     = EvWriteFile (concatListPath env) (listContent files) :: rest)
  /\ (writeFile_result env = WriteOk ->
      exists rest,
        events (run env (UploadDone (Some files)) d)
        = EvWriteFile (concatListPath env) (listContent files)
            :: EvFfmpeg (concatListPath env) (outputPath env) :: rest)
  /\ (forall (ts : Z) (name : jsstring), c_quote ∉ filename ts name)
  /\ (c_quote ∉ uploadDir env ->
       forall file, file ∈ files -> c_quote ∉ slashes (path file)).
Proof.
  intros files HN.
  assert (HF : (2 <= length files)%nat) by (unfold files; now rewrite length_map).
  split; [| split; [| split]].
  - rewrite (run_merge env files d HF). unfold events.
    destruct (writeFile_result env) as [|message created] eqn:E1.
    + destruct (ffmpeg_result env) as [|message partial] eqn:E2.
      * rewrite (merge_ffmpeg_ended env files (start d) E1 E2). simpl. eauto.
      * rewrite (merge_ffmpeg_failed env files message partial (start d) E1 E2).
        simpl. eauto.
    + rewrite (merge_write_failed env files message created (start d) E1). simpl. eauto.
  - intros E1. exact (merge_starts_ffmpeg env files d HF E1).
  - intros ts name. apply not_in_filename. reflexivity.
  - intros Hd file Hf. unfold files in Hf.
    apply list_elem_of_fmap in Hf as (part & -> & _).
    apply not_in_slashes; [discriminate |].
    apply not_in_staged_path; [exact Hd | discriminate | discriminate | reflexivity].
Qed.

(** ** The claims on concrete requests *)

Lemma too_few_files_rejected_witness :
  events (run (ex_env WriteOk FfEnd None never_fails) (UploadDone (Some [ex_a]))
            {[ path ex_a ]})
  = [EvJson 400 {| error := str "Please upload at least 2 videos to merge";
                   details := None |}].
Proof. apply too_few_files_rejected. simpl. lia. Defined.

(** C3, as stated, fails for a request with the single file [a.mp4]:
    the body of the 400 response has no [details] member, and the staged
    file is still in the upload directory when the handler is done. *)
Lemma one_file_response_has_no_details :
  let w := run (ex_env WriteOk FfEnd None never_fails) (UploadDone (Some [ex_a]))
             {[ path ex_a ]} in
  (length [ex_a] < 2)%nat
  /\ events w = [EvJson 400 {| error := str "Please upload at least 2 videos to merge";
                                details := None |}]
  /\ ~ (exists status body, EvJson status body ∈ events w /\ is_Some (details body))
  /\ path ex_a ∈ disk w.
Proof.
  intros w. split; [simpl; lia |]. split; [reflexivity |]. split.
  - intros (status & body & Hin & Hd).
    apply list_elem_of_singleton in Hin. injection Hin as _ ->.
    destruct Hd as [x Hx]. discriminate Hx.
  - change (disk w) with ({[ path ex_a ]} : gset (list N)).
    now apply elem_of_singleton_2.
Qed.

(** C1 at a request with the single file [a.mp4]: the handler answers
    400 and returns without a call of [cleanup]; the staged file stays
    in the upload directory. *)
Theorem one_file_request_leaks :
  let w := run (ex_env WriteOk FfEnd None never_fails) (UploadDone (Some [ex_a]))
             {[ path ex_a ]} in
  events w = [EvJson 400 too_few]
  /\ cleanup_calls w = 0%nat
  /\ path ex_a ∈ disk w.
Proof.
  intros w. split; [reflexivity |]. split; [reflexivity |].
  change (disk w) with ({[ path ex_a ]} : gset (list N)).
  now apply elem_of_singleton_2.
Qed.

(** C6, as stated, fails when the first uploaded file cannot be removed:
    [cleanup] attempts that removal only, and the second file, the list
    file and the merged file are neither attempted nor removed. *)
Lemma cleanup_abandons_later_files :
  let env := ex_env WriteOk FfEnd None (fails_on (path ex_a)) in
  let d : gset jsstring :=
    {[ path ex_a; path ex_b; concatListPath env; outputPath env ]} in
  let w := (cleanup env [ex_a; ex_b] (Some (concatListPath env))
              (Some (outputPath env)) (start d)).2 in
  events w
    = [EvCleanup [ex_a; ex_b] (Some (concatListPath env)) (Some (outputPath env));
       EvRemove (path ex_a)]
  /\ (EvRemove (path ex_b) ∉ events w)
  /\ (EvRemove (concatListPath env) ∉ events w)
  /\ (EvRemove (outputPath env) ∉ events w)
  /\ disk w = d.
Proof.
  intros env d w.
  assert (E : events w
    = [EvCleanup [ex_a; ex_b] (Some (concatListPath env)) (Some (outputPath env));
       EvRemove (path ex_a)]) by (vm_compute; reflexivity).
  split; [exact E |].
  split; [| split; [| split]];
    try (rewrite E; intros H; apply list_elem_of_In in H; simpl in H;
         destruct H as [H | [H | []]]; [discriminate H | vm_compute in H; discriminate H]).
  vm_compute. reflexivity.
Qed.

Lemma manifest_written_unchecked_witness :
  let env := ex_env WriteOk FfEnd None never_fails in
  let w := run env (UploadDone (Some [ex_a; ex_b])) {[ path ex_a; path ex_b ]} in
  (exists rest,
     events w = EvWriteFile (concatListPath env) (listContent [ex_a; ex_b]) :: rest)
  /\ (writeFile_result env = WriteOk ->
      exists rest,
        events w
        = EvWriteFile (concatListPath env) (listContent [ex_a; ex_b])
            :: EvFfmpeg (concatListPath env) (outputPath env) :: rest)
  /\ (forall (ts : Z) (name : jsstring), c_quote ∉ filename ts name)
  /\ (c_quote ∉ ex_dir ->
       forall file, file ∈ [ex_a; ex_b] -> c_quote ∉ slashes (path file)).
Proof.
  intros env w.
  apply (manifest_written_unchecked env ex_parts {[ path ex_a; path ex_b ]}).
  simpl. lia.
Defined.

(** C2, as stated, fails below the directory [/srv/o'brien/uploads]:
    both staged paths contain a single quote, and still the concat list
    is written, with the quote inside the quoted path, and FFmpeg is
    started on it; this is so whatever FFmpeg and the transfer then
    do. *)
Lemma quoted_path_reaches_ffmpeg :
  let qa := stage Posix ex_quoted_dir (1700000000001%Z, str "a.mp4") in
  let qb := stage Posix ex_quoted_dir (1700000000002%Z, str "b.mp4") in
  let concat := str "/srv/o'brien/uploads/concat_1700000000010.txt" in
  let merged := str "/srv/o'brien/uploads/merged_1700000000011.mp4" in
  c_quote ∈ path qa
  /\ c_quote ∈ path qb
  /\ (forall (ff : FfmpegResult) (send : option jsstring),
        take 2 (events (run (ex_quoted_env ff send) (UploadDone (Some [qa; qb]))
                          {[ path qa; path qb ]}))
        = [EvWriteFile concat
             (str "file '/srv/o'brien/uploads/1700000000001_a.mp4'" ++ [c_lf] ++
              str "file '/srv/o'brien/uploads/1700000000002_b.mp4'");
           EvFfmpeg concat merged]).
Proof.
  intros qa qb concat merged. split; [| split].
  - apply list_elem_of_In. vm_compute. tauto.
  - apply list_elem_of_In. vm_compute. tauto.
  - intros ff send.
    destruct (merge_starts_ffmpeg (ex_quoted_env ff send) [qa; qb]
                {[ path qa; path qb ]}) as [rest ->];
      [simpl; lia | reflexivity |].
    reflexivity.
Qed.

Lemma failed_merge_leaves_output_witness :
  let env := ex_env WriteOk (FfError (str "ffmpeg exited with code 1") true) None
               never_fails in
  let w := run env (UploadDone (Some [ex_a; ex_b])) {[ path ex_a; path ex_b ]} in
  last (events w)
    = Some (EvJson 500 {| error := str "Video merge failed";
                          details := Some (str "ffmpeg exited with code 1") |})
  /\ cleanup_calls w = 1%nat
  /\ (EvRemove (outputPath env) ∉ events w)
  /\ outputPath env ∈ disk w.
Proof.
  intros env w.
  apply (failed_merge_leaves_output env ex_parts {[ path ex_a; path ex_b ]}
           (str "ffmpeg exited with code 1")).
  - simpl. lia.
  - reflexivity.
  - reflexivity.
Defined.

Lemma cleanup_follows_download_witness :
  let env := ex_env WriteOk FfEnd (Some (str "Request aborted")) never_fails in
  exists (d2 : gset jsstring) (removals : list (Event * gset jsstring)),
    log (run env (UploadDone (Some [ex_a; ex_b])) {[ path ex_a; path ex_b ]})
    = [(EvWriteFile (concatListPath env) (listContent [ex_a; ex_b]),
        {[ path ex_a; path ex_b ]});
       (EvFfmpeg (concatListPath env) (outputPath env),
        {[ concatListPath env ]} ∪ {[ path ex_a; path ex_b ]});
       (EvDownload (outputPath env) (str "merged.mp4"), d2);
       (EvSent (Some (str "Request aborted")), d2);
       (EvCleanup [ex_a; ex_b] (Some (concatListPath env)) (Some (outputPath env)), d2)]
      ++ removals
    /\ outputPath env ∈ d2
    /\ Forall (fun entry => is_remove entry.1 = true) removals.
Proof.
  intros env.
  apply (cleanup_follows_download env [ex_a; ex_b] {[ path ex_a; path ex_b ]}).
  - simpl. lia.
  - reflexivity.
  - reflexivity.
Defined.

Lemma names_do_not_collide_witness :
  path (stage Posix ex_dir (1700000000001%Z, str "a.mp4"))
    <> path (stage Posix ex_dir (1700000000002%Z, str "a.mp4"))
  /\ outputPath (ex_env WriteOk FfEnd None never_fails)
       <> outputPath {| platform := Posix; uploadDir := ex_dir;
                        now_concat := 1700000000020; now_merged := 1700000000021;
                        writeFile_result := WriteOk; ffmpeg_result := FfEnd;
                        send_result := None; remove_error := never_fails |}.
Proof.
  destruct (names_do_not_collide Posix ex_dir) as [Hstage Hout]. split.
  - apply Hstage. lia.
  - apply Hout; try reflexivity. simpl. lia.
Defined.

Lemma cleanup_stops_at_first_failure_witness :
  let env := ex_env WriteOk FfEnd None never_fails in
  let d : gset jsstring :=
    {[ path ex_a; path ex_b; concatListPath env; outputPath env ]} in
  let out := cleanup env [ex_a; ex_b] (Some (concatListPath env)) (Some (outputPath env))
               (start d) in
  events out.2
    = [EvCleanup [ex_a; ex_b] (Some (concatListPath env)) (Some (outputPath env));
       EvRemove (path ex_a); EvRemove (path ex_b);
       EvRemove (concatListPath env); EvRemove (outputPath env)]
  /\ disk out.2
     = d ∖ list_to_set [path ex_a; path ex_b; concatListPath env; outputPath env].
Proof.
  intros env d out.
  destruct (cleanup_stops_at_first_failure env [ex_a; ex_b] (Some (concatListPath env))
              (Some (outputPath env)) (start d)) as (_ & Hall & _).
  apply Hall. repeat constructor.
Defined.

(** * The handler as a whole *)

(** Every run of the callback is one of the six outcomes. *)
Lemma run_outcome (env : Env) (up : Upload) (d : gset jsstring) :
  Outcome env d up (run env up d).
Proof.
  destruct up as [message | [files |]]; [apply UploadFailed | | apply NoFiles].
  destruct (Nat.ltb_spec (length files) 2) as [H|H].
  - replace (run env (UploadDone (Some files)) d)
      with {| disk := d; log := [(EvJson 400 too_few, d)] |};
      [now apply TooFewFiles |].
    unfold run, handler.
    destruct (Nat.ltb_spec (length files) 2) as [_|H']; [reflexivity | lia].
  - rewrite (run_merge env files d H).
    destruct (writeFile_result env) as [|message created] eqn:E1.
    + destruct (ffmpeg_result env) as [|message partial] eqn:E2.
      * rewrite (merge_ffmpeg_ended env files (start d) E1 E2). simpl.
        eapply Merged; try eassumption; reflexivity.
      * rewrite (merge_ffmpeg_failed env files message partial (start d) E1 E2). simpl.
        eapply MergeFailed; try eassumption; reflexivity.
    + rewrite (merge_write_failed env files message created (start d) E1). simpl.
      eapply WriteFailed; try eassumption; reflexivity.
Qed.

Lemma removal_events (env : Env) (d : gset jsstring) (l : list jsstring) (e : Event) :
  e ∈ map fst (remove_log env d l) -> exists p, e = EvRemove p /\ p ∈ l.
Proof.
  rewrite remove_log_events. intros H.
  apply list_elem_of_fmap in H as (p & -> & Hp). exists p. split; [reflexivity |].
  clear d. induction l as [|q l IH]; simpl in Hp; [inversion Hp |].
  destruct (remove_error env q).
  - apply list_elem_of_singleton in Hp as ->. left.
  - apply elem_of_cons in Hp as [-> | Hp]; [left | right; exact (IH Hp)].
Qed.

Lemma removal_entries (env : Env) (d : gset jsstring) (l : list jsstring)
    (e : Event) (snap : gset jsstring) :
  (e, snap) ∈ remove_log env d l -> is_remove e = true.
Proof.
  intros H. pose proof (removals_are_removals env d l) as F.
  rewrite Forall_forall in F. exact (F _ H).
Qed.

Lemma filter_removals (f : Event -> bool) (env : Env) (d : gset jsstring)
    (l : list jsstring) :
  (forall p, f (EvRemove p) = false) ->
  List.filter f (map fst (remove_log env d l)) = [].
Proof.
  intros Hf. rewrite remove_log_events.
  induction (attempted env l) as [|p ps IH]; [reflexivity |].
  simpl. now rewrite Hf.
Qed.

(** X1. Whatever the upload, the file system and FFmpeg do, the client
    gets exactly one response: one JSON body or one download, never
    both and never two. *)
Theorem one_response_per_request (env : Env) (up : Upload) (d : gset jsstring) :
  count_events is_response (run env up d) = 1%nat.
Proof.
  unfold count_events, events.
  destruct (run_outcome env up d); simpl;
    rewrite ?map_app, ?List.filter_app, ?filter_removals by reflexivity;
    reflexivity.
Qed.

(** X2. No exception leaves the callback: from any world, for any
    upload and any failure of [fs.writeFile], FFmpeg, the transfer or
    [fs.remove], the handler returns normally. *)
Theorem handler_never_throws (env : Env) (up : Upload) (w : World) :
  (handler env up w).1 = Ok tt.
Proof.
  destruct up as [message | [files |]]; try reflexivity.
  unfold handler. destruct (length files <? 2)%nat; [reflexivity |].
  destruct (writeFile_result env) as [|message created] eqn:E1.
  - destruct (ffmpeg_result env) as [|message partial] eqn:E2.
    + now rewrite (merge_ffmpeg_ended env files w E1 E2).
    + now rewrite (merge_ffmpeg_failed env files message partial w E1 E2).
  - now rewrite (merge_write_failed env files message created w E1).
Qed.

(** X3. Every JSON response is an error of one of two kinds: status 400
    with the body [{error: "Please upload at least 2 videos to merge"}],
    sent only when the upload brought no file array or fewer than two
    files; or status 500 with a [details] member that is the message of
    the failure behind it (of multer, of [fs.writeFile] or of FFmpeg). *)
Theorem error_responses_classified (env : Env) (up : Upload) (d : gset jsstring)
    (status : Z) (body : Body) :
  EvJson status body ∈ events (run env up d) ->
  (status = 400%Z
   /\ body = {| error := str "Please upload at least 2 videos to merge";
                details := None |}
   /\ (up = UploadDone None
       \/ exists files, up = UploadDone (Some files) /\ (length files < 2)%nat))
  \/ (status = 500%Z
      /\ exists message, details body = Some message
         /\ (up = UploadErr message
             \/ (exists created, writeFile_result env = WriteErr message created)
             \/ (exists partial, ffmpeg_result env = FfError message partial))).
Proof.
  unfold events.
  destruct (run_outcome env up d) as
    [message | | files Hlen | files message created d1 d2 Hlen E1 _ _
     | files message partial d2 arts Hlen E1 E2 _ _ | files d2 arts Hlen E1 E2 _ _];
    simpl; rewrite ?map_app; simpl; intros H.
  - apply list_elem_of_singleton in H. injection H as -> ->.
    right. split; [reflexivity |]. exists message. split; [reflexivity | now left].
  - apply list_elem_of_singleton in H. injection H as -> ->.
    left. split; [reflexivity |]. split; [reflexivity | now left].
  - apply list_elem_of_singleton in H. injection H as -> ->.
    left. split; [reflexivity |]. split; [reflexivity | right; eauto].
  - rewrite !elem_of_cons in H. destruct H as [H | [H | [H | H]]];
      try discriminate H; [| inversion H].
    injection H as -> ->. right. split; [reflexivity |].
    exists message. split; [reflexivity | right; left; eauto].
  - rewrite !elem_of_cons, elem_of_app in H.
    destruct H as [H | [H | [H | [H | H]]]]; try discriminate H.
    + apply removal_events in H as (p & Hp & _). discriminate Hp.
    + apply list_elem_of_singleton in H. injection H as -> ->.
      right. split; [reflexivity |].
      exists message. split; [reflexivity | right; right; eauto].
  - rewrite !elem_of_cons in H.
    destruct H as [H | [H | [H | [H | [H | H]]]]]; try discriminate H.
    apply removal_events in H as (p & Hp & _). discriminate Hp.
Qed.

Lemma error_responses_classified_witness :
  let env := ex_env (WriteErr (str "ENOSPC") false) FfEnd None never_fails in
  let body := {| error := str "Server error"; details := Some (str "ENOSPC") |} in
  exists message, details body = Some message
    /\ (UploadDone (Some [ex_a; ex_b]) = UploadErr message
        \/ (exists created, writeFile_result env = WriteErr message created)
        \/ (exists partial, ffmpeg_result env = FfError message partial)).
Proof.
  intros env body.
  destruct (error_responses_classified env (UploadDone (Some [ex_a; ex_b]))
              {[ path ex_a; path ex_b ]} 500 body) as [[H _] | [_ H]].
  - apply list_elem_of_In. vm_compute. tauto.
  - discriminate H.
  - exact H.
Defined.

(** X4. A download is started only for a request with at least two
    files whose manifest was written and for which FFmpeg finished; the
    file sent is the output path of the request, under the name
    [merged.mp4]. *)
Theorem download_only_after_merge (env : Env) (up : Upload) (d : gset jsstring)
    (file name : jsstring) :
  EvDownload file name ∈ events (run env up d) ->
  file = outputPath env /\ name = str "merged.mp4"
  /\ writeFile_result env = WriteOk /\ ffmpeg_result env = FfEnd
  /\ exists files, up = UploadDone (Some files) /\ (2 <= length files)%nat.
Proof.
  unfold events.
  destruct (run_outcome env up d) as
    [message | | files Hlen | files message created d1 d2 Hlen E1 _ _
     | files message partial d2 arts Hlen E1 E2 _ _ | files d2 arts Hlen E1 E2 _ _];
    simpl; rewrite ?map_app; simpl; intros H.
  - apply list_elem_of_singleton in H. discriminate H.
  - apply list_elem_of_singleton in H. discriminate H.
  - apply list_elem_of_singleton in H. discriminate H.
  - rewrite !elem_of_cons in H. destruct H as [H | [H | [H | H]]];
      try discriminate H. inversion H.
  - rewrite !elem_of_cons, elem_of_app in H.
    destruct H as [H | [H | [H | [H | H]]]]; try discriminate H.
    + apply removal_events in H as (p & Hp & _). discriminate Hp.
    + apply list_elem_of_singleton in H. discriminate H.
  - rewrite !elem_of_cons in H.
    destruct H as [H | [H | [H | [H | [H | H]]]]]; try discriminate H.
    + injection H as -> ->. repeat split; try assumption. eauto.
    + apply removal_events in H as (p & Hp & _). discriminate Hp.
Qed.

Lemma download_only_after_merge_witness :
  let env := ex_env WriteOk FfEnd None never_fails in
  outputPath env = outputPath env /\ str "merged.mp4" = str "merged.mp4"
  /\ writeFile_result env = WriteOk /\ ffmpeg_result env = FfEnd
  /\ exists files, UploadDone (Some [ex_a; ex_b]) = UploadDone (Some files)
                   /\ (2 <= length files)%nat.
Proof.
  intros env.
  apply (download_only_after_merge env (UploadDone (Some [ex_a; ex_b]))
           {[ path ex_a; path ex_b ]}).
  apply list_elem_of_In. vm_compute. tauto.
Defined.

(** X5. FFmpeg is started at most once per request, and only right
    after the concat list of the request's files was written without
    error; its input is the list file and its output the output path. *)
Theorem ffmpeg_runs_on_written_manifest (env : Env) (up : Upload) (d : gset jsstring)
    (input output : jsstring) :
  EvFfmpeg input output ∈ events (run env up d) ->
  input = concatListPath env /\ output = outputPath env
  /\ writeFile_result env = WriteOk
  /\ count_events is_ffmpeg (run env up d) = 1%nat
  /\ exists files rest,
       up = UploadDone (Some files) /\ (2 <= length files)%nat
       /\ events (run env up d)
          = EvWriteFile (concatListPath env) (listContent files)
              :: EvFfmpeg (concatListPath env) (outputPath env) :: rest.
Proof.
  unfold count_events, events.
  destruct (run_outcome env up d) as
    [message | | files Hlen | files message created d1 d2 Hlen E1 _ _
     | files message partial d2 arts Hlen E1 E2 _ _ | files d2 arts Hlen E1 E2 _ _];
    simpl; rewrite ?map_app; simpl; intros H.
  - apply list_elem_of_singleton in H. discriminate H.
  - apply list_elem_of_singleton in H. discriminate H.
  - apply list_elem_of_singleton in H. discriminate H.
  - rewrite !elem_of_cons in H. destruct H as [H | [H | [H | H]]];
      try discriminate H. inversion H.
  - rewrite !elem_of_cons, elem_of_app in H.
    destruct H as [H | [H | [H | [H | H]]]]; try discriminate H.
    + injection H as -> ->. repeat split; try assumption.
      * rewrite List.filter_app, filter_removals by reflexivity. reflexivity.
      * eauto 6.
    + apply removal_events in H as (p & Hp & _). discriminate Hp.
    + apply list_elem_of_singleton in H. discriminate H.
  - rewrite !elem_of_cons in H.
    destruct H as [H | [H | [H | [H | [H | H]]]]]; try discriminate H.
    + injection H as -> ->. repeat split; try assumption.
      * rewrite filter_removals by reflexivity. reflexivity.
      * eauto 6.
    + apply removal_events in H as (p & Hp & _). discriminate Hp.
Qed.

Lemma ffmpeg_runs_on_written_manifest_witness :
  let env := ex_env WriteOk (FfError (str "ffmpeg exited with code 1") false) None
               never_fails in
  let w := run env (UploadDone (Some [ex_a; ex_b])) {[ path ex_a; path ex_b ]} in
  concatListPath env = concatListPath env /\ outputPath env = outputPath env
  /\ writeFile_result env = WriteOk
  /\ count_events is_ffmpeg w = 1%nat
  /\ exists files rest,
       UploadDone (Some [ex_a; ex_b]) = UploadDone (Some files)
       /\ (2 <= length files)%nat
       /\ events w
          = EvWriteFile (concatListPath env) (listContent files)
              :: EvFfmpeg (concatListPath env) (outputPath env) :: rest.
Proof.
  intros env w.
  apply (ffmpeg_runs_on_written_manifest env (UploadDone (Some [ex_a; ex_b]))
           {[ path ex_a; path ex_b ]}).
  apply list_elem_of_In. vm_compute. tauto.
Defined.

(** X6. When FFmpeg is started, the list file it reads is in the upload
    directory, and so is everything that was there when the callback
    began: nothing is removed before FFmpeg runs. *)
Theorem ffmpeg_inputs_present (env : Env) (up : Upload) (d snap : gset jsstring)
    (input output : jsstring) :
  (EvFfmpeg input output, snap) ∈ log (run env up d) ->
  input ∈ snap /\ (forall p, p ∈ d -> p ∈ snap).
Proof.
  destruct (run_outcome env up d) as
    [message | | files Hlen | files message created d1 d2 Hlen E1 _ _
     | files message partial d2 arts Hlen E1 E2 _ _ | files d2 arts Hlen E1 E2 _ _];
    simpl; intros H.
  - apply list_elem_of_singleton in H. discriminate H.
  - apply list_elem_of_singleton in H. discriminate H.
  - apply list_elem_of_singleton in H. discriminate H.
  - rewrite !elem_of_cons in H. destruct H as [H | [H | [H | H]]];
      try discriminate H. inversion H.
  - rewrite !elem_of_cons, elem_of_app in H.
    destruct H as [H | [H | [H | [H | H]]]]; try discriminate H.
    + injection H as -> -> ->. split.
      * apply elem_of_union_l. now apply elem_of_singleton_2.
      * intros p Hp. now apply elem_of_union_r.
    + apply removal_entries in H. discriminate H.
    + apply list_elem_of_singleton in H. discriminate H.
  - rewrite !elem_of_cons in H.
    destruct H as [H | [H | [H | [H | [H | H]]]]]; try discriminate H.
    + injection H as -> -> ->. split.
      * apply elem_of_union_l. now apply elem_of_singleton_2.
      * intros p Hp. now apply elem_of_union_r.
    + apply removal_entries in H. discriminate H.
Qed.

Lemma ffmpeg_inputs_present_witness :
  let env := ex_env WriteOk FfEnd None never_fails in
  let d : gset jsstring := {[ path ex_a; path ex_b ]} in
  concatListPath env ∈ {[ concatListPath env ]} ∪ d
  /\ (forall p, p ∈ d -> p ∈ {[ concatListPath env ]} ∪ d).
Proof.
  intros env d.
  apply (ffmpeg_inputs_present env (UploadDone (Some [ex_a; ex_b])) d _ _ (outputPath env)).
  apply list_elem_of_lookup. exists 1%nat. vm_compute. reflexivity.
Defined.

(** X7. When the concat list cannot be written (at least two files),
    FFmpeg is not started and [cleanup] is not called: the handler tries
    to remove the list file, swallows a failure of that removal, and
    answers 500 "Server error" with the write error as [details]. The
    list file is gone if its removal succeeded, and every other file of
    the directory, the uploaded ones included, is as it was. *)
Theorem write_failure_stops_the_job (env : Env) (files : list File) (d : gset jsstring)
    (message : jsstring) (created : bool) :
  (2 <= length files)%nat ->
  writeFile_result env = WriteErr message created ->
  let w := run env (UploadDone (Some files)) d in
  events w
    = [EvWriteFile (concatListPath env) (listContent files);
       EvRemove (concatListPath env);
       EvJson 500 {| error := str "Server error"; details := Some message |}]
  /\ (removable env (concatListPath env) -> concatListPath env ∉ disk w)
  /\ (forall p, p <> concatListPath env -> (p ∈ disk w <-> p ∈ d)).
Proof.
  intros Hlen E1 w. unfold w. rewrite (run_merge env files d Hlen).
  rewrite (merge_write_failed env files message created (start d) E1). simpl.
  split; [reflexivity |]. split.
  - unfold removable. intros -> H. apply elem_of_difference in H as [_ H].
    apply H. now apply elem_of_singleton_2.
  - intros p Hp. destruct created, (remove_error env (concatListPath env));
      rewrite ?elem_of_difference, ?elem_of_union, ?elem_of_singleton; tauto.
Qed.

Lemma write_failure_stops_the_job_witness :
  let env := ex_env (WriteErr (str "ENOSPC") true) FfEnd None never_fails in
  let w := run env (UploadDone (Some [ex_a; ex_b])) {[ path ex_a; path ex_b ]} in
  events w
    = [EvWriteFile (concatListPath env) (listContent [ex_a; ex_b]);
       EvRemove (concatListPath env);
       EvJson 500 {| error := str "Server error"; details := Some (str "ENOSPC") |}]
  /\ (removable env (concatListPath env) -> concatListPath env ∉ disk w)
  /\ (forall p, p <> concatListPath env ->
        (p ∈ disk w <-> p ∈ ({[ path ex_a; path ex_b ]} : gset (list N)))).
Proof.
  intros env w.
  apply (write_failure_stops_the_job env [ex_a; ex_b] {[ path ex_a; path ex_b ]}
           (str "ENOSPC") true).
  - simpl. lia.
  - reflexivity.
Defined.

(** X8. When FFmpeg finishes and no removal fails, nothing of the job
    is left, whether the transfer to the client succeeded or not: the
    upload directory is what it was at the start without the uploaded
    files, the list file and the output; [cleanup] ran once. *)
Theorem merged_job_leaves_nothing (env : Env) (files : list File) (d : gset jsstring) :
  (2 <= length files)%nat ->
  writeFile_result env = WriteOk ->
  ffmpeg_result env = FfEnd ->
  Forall (removable env) (map path files ++ [concatListPath env; outputPath env]) ->
  let w := run env (UploadDone (Some files)) d in
  disk w = d ∖ list_to_set (map path files ++ [concatListPath env; outputPath env])
  /\ cleanup_calls w = 1%nat.
Proof.
  intros Hlen E1 E2 Hall w. split.
  - unfold w. rewrite (run_merge env files d Hlen).
    rewrite (merge_ffmpeg_ended env files (start d) E1 E2). simpl.
    destruct (all_removable env _ Hall) as [_ ->].
    apply set_eq. intros x.
    rewrite !elem_of_difference, !elem_of_union, !elem_of_singleton,
      !elem_of_list_to_set, !elem_of_app, !elem_of_cons.
    tauto.
  - unfold w. rewrite cleanup_calls_run.
    destruct (Nat.ltb_spec (length files) 2) as [H'|_]; [lia |]. now rewrite E1.
Qed.

Lemma merged_job_leaves_nothing_witness :
  let env := ex_env WriteOk FfEnd (Some (str "Request aborted")) never_fails in
  let w := run env (UploadDone (Some [ex_a; ex_b])) {[ path ex_a; path ex_b ]} in
  disk w = {[ path ex_a; path ex_b ]}
             ∖ list_to_set (map path [ex_a; ex_b] ++ [concatListPath env; outputPath env])
  /\ cleanup_calls w = 1%nat.
Proof.
  intros env w.
  apply (merged_job_leaves_nothing env [ex_a; ex_b] {[ path ex_a; path ex_b ]}).
  - simpl. lia.
  - reflexivity.
  - reflexivity.
  - repeat constructor.
Defined.

(** X9. When FFmpeg fails before it has created the output and no
    removal fails, the uploaded files and the list file are removed and
    the directory is otherwise as it was at the start. *)
Theorem failed_job_without_output_leaves_nothing (env : Env) (files : list File)
    (d : gset jsstring) (message : jsstring) :
  (2 <= length files)%nat ->
  writeFile_result env = WriteOk ->
  ffmpeg_result env = FfError message false ->
  Forall (removable env) (map path files ++ [concatListPath env]) ->
  disk (run env (UploadDone (Some files)) d)
  = d ∖ list_to_set (map path files ++ [concatListPath env]).
Proof.
  intros Hlen E1 E2 Hall. rewrite (run_merge env files d Hlen).
  rewrite (merge_ffmpeg_failed env files message false (start d) E1 E2). simpl.
  destruct (all_removable env _ Hall) as [_ ->].
  apply set_eq. intros x.
  rewrite !elem_of_difference, !elem_of_union, !elem_of_singleton,
    !elem_of_list_to_set, !elem_of_app, !elem_of_cons.
  tauto.
Qed.

Lemma failed_job_without_output_leaves_nothing_witness :
  let env := ex_env WriteOk (FfError (str "Invalid data found") false) None never_fails in
  disk (run env (UploadDone (Some [ex_a; ex_b])) {[ path ex_a; path ex_b ]})
  = {[ path ex_a; path ex_b ]}
      ∖ list_to_set (map path [ex_a; ex_b] ++ [concatListPath env]).
Proof.
  intros env.
  apply (failed_job_without_output_leaves_nothing env [ex_a; ex_b]
           {[ path ex_a; path ex_b ]} (str "Invalid data found")).
  - simpl. lia.
  - reflexivity.
  - reflexivity.
  - repeat constructor.
Defined.

(** X10. The handler keeps to its own files. Whatever happens, a file
    that is in the upload directory at the end was there at the start or
    is the list file or the output of this request; and a file that was
    there at the start and is neither one of the request's uploaded
    files nor its list file nor its output is still there. *)
Theorem handler_keeps_to_its_files (env : Env) (up : Upload) (d : gset jsstring) :
  (forall p, p ∈ disk (run env up d) ->
     p ∈ d \/ p = concatListPath env \/ p = outputPath env)
  /\ (forall p, p ∈ d ->
        p <> concatListPath env -> p <> outputPath env ->
        (forall files, up = UploadDone (Some files) -> p ∉ map path files) ->
        p ∈ disk (run env up d)).
Proof.
  destruct (run_outcome env up d) as
    [message | | files Hlen | files message created d1 d2 Hlen E1 -> ->
     | files message partial d2 arts Hlen E1 E2 -> -> | files d2 arts Hlen E1 E2 -> ->];
    simpl.
  - split; [intros p Hp; now left | intros p Hp _ _ _; exact Hp].
  - split; [intros p Hp; now left | intros p Hp _ _ _; exact Hp].
  - split; [intros p Hp; now left | intros p Hp _ _ _; exact Hp].
  - split.
    + intros p. destruct created, (remove_error env (concatListPath env));
        rewrite ?elem_of_difference, ?elem_of_union, ?elem_of_singleton; tauto.
    + intros p Hp Hc _ _. destruct created, (remove_error env (concatListPath env));
        rewrite ?elem_of_difference, ?elem_of_union, ?elem_of_singleton; tauto.
  - split.
    + intros p. destruct partial;
        rewrite ?elem_of_difference, ?elem_of_union, ?elem_of_singleton; tauto.
    + intros p Hp Hc Ho Hf. apply elem_of_difference. split.
      * destruct partial; rewrite ?elem_of_union; tauto.
      * intros H. apply elem_of_list_to_set, removed_subset in H.
        apply elem_of_app in H as [H | H]; [exact (Hf files eq_refl H) |].
        apply list_elem_of_singleton in H. exact (Hc H).
  - split.
    + intros p. rewrite ?elem_of_difference, ?elem_of_union, ?elem_of_singleton. tauto.
    + intros p Hp Hc Ho Hf. apply elem_of_difference. split.
      * rewrite ?elem_of_union; tauto.
      * intros H. apply elem_of_list_to_set, removed_subset in H.
        apply elem_of_app in H as [H | H]; [exact (Hf files eq_refl H) |].
        rewrite !elem_of_cons in H. destruct H as [H | [H | H]];
          [exact (Hc H) | exact (Ho H) | inversion H].
Qed.

(** X11. [cleanup] is called exactly as often as FFmpeg is started, and
    that is never more than once per request. *)
Theorem cleanup_once_per_ffmpeg (env : Env) (up : Upload) (d : gset jsstring) :
  cleanup_calls (run env up d) = count_events is_ffmpeg (run env up d)
  /\ (cleanup_calls (run env up d) <= 1)%nat.
Proof.
  unfold cleanup_calls, count_events, events.
  destruct (run_outcome env up d); simpl;
    rewrite ?map_app, ?List.filter_app, ?filter_removals by reflexivity;
    simpl; split; (reflexivity || lia).
Qed.

(** * Names and paths *)

(** X12. Two staged names are equal exactly when they were made in the
    same millisecond from original names that sanitize to the same
    text: the timestamp is the only thing that keeps apart uploads
    whose names differ in replaced characters only. *)
Theorem filename_collision_iff (ts1 ts2 : Z) (n1 n2 : jsstring) :
  filename ts1 n1 = filename ts2 n2 <-> ts1 = ts2 /\ safeName n1 = safeName n2.
Proof.
  split.
  - intros E. pose proof (filename_inj_ts _ _ _ _ E) as ->. split; [reflexivity |].
    unfold filename in E. apply app_inv_head in E. now injection E.
  - intros [-> E]. unfold filename. now rewrite E.
Qed.

(** X13. Sanitizing is idempotent, and it leaves a name as it is
    exactly when all its characters are in [A-Za-z0-9._-]. *)
Theorem safeName_idempotent (originalname : jsstring) :
  safeName (safeName originalname) = safeName originalname
  /\ (safeName originalname = originalname
      <-> Forall (fun c => in_spec_class c = true) originalname).
Proof.
  split.
  - induction originalname as [|c s IH]; [reflexivity |].
    simpl. f_equal; [| exact IH].
    destruct (in_class c) eqn:E; [now rewrite E | reflexivity].
  - split.
    + intros E. rewrite <- E. apply safeName_chars.
    + induction 1 as [|c s Hc _ IH]; [reflexivity |].
      simpl. f_equal; [| exact IH].
      rewrite in_spec_class_eq in Hc. destruct (in_class c); [reflexivity |].
      simpl in Hc. apply N.eqb_eq in Hc. now rewrite Hc.
Qed.

(** X14. A staged name is a plain file name: it is not empty, it is
    neither [.] nor [..], and it contains no slash, no backslash and no
    NUL, whatever the client sent as the original name. *)
Theorem staged_name_is_plain (ts : Z) (originalname : jsstring) :
  (c_slash ∉ filename ts originalname)
  /\ (c_backslash ∉ filename ts originalname)
  /\ (0 ∉ filename ts originalname)
  /\ c_underscore ∈ filename ts originalname
  /\ filename ts originalname <> []
  /\ filename ts originalname <> str "."
  /\ filename ts originalname <> str "..".
Proof.
  assert (U : c_underscore ∈ filename ts originalname).
  { unfold filename. apply elem_of_app. right. left. }
  repeat split; try (apply not_in_filename; reflexivity); try exact U;
    intros E; rewrite E in U; apply list_elem_of_In in U; simpl in U;
    intuition discriminate.
Qed.

Lemma concatListPath_not_staged (env : Env) (part : Z * jsstring) :
  concatListPath env <> path (stage (platform env) (uploadDir env) part).
Proof.
  unfold concatListPath. simpl. intros E. apply path_join_inj in E.
  revert E. apply stamped_not_staged. lia.
Qed.

(** X15. Within a request the list file and the output have different
    paths, and neither of them is the path of a staged upload, even
    when all of them were named in the same millisecond. *)
Theorem job_paths_distinct (env : Env) (part : Z * jsstring) :
  concatListPath env <> outputPath env
  /\ concatListPath env <> path (stage (platform env) (uploadDir env) part)
  /\ outputPath env <> path (stage (platform env) (uploadDir env) part).
Proof.
  split; [| split].
  - intros E. symmetry in E. exact (outputPath_not_concatListPath env E).
  - apply concatListPath_not_staged.
  - apply outputPath_not_staged.
Qed.

Lemma slashes_fixed (s : jsstring) : slashes s = s <-> c_backslash ∉ s.
Proof.
  split.
  - intros E. rewrite <- E. apply no_backslash_in_slashes.
  - induction s as [|c s IH]; intros H; [reflexivity |].
    apply not_elem_of_cons in H as [Hc Hs]. simpl.
    destruct (N.eqb_spec c c_backslash) as [->|_]; [congruence |].
    f_equal. exact (IH Hs).
Qed.

(** X16. The path between the quotes of a manifest entry is the staged
    path itself exactly on a POSIX host whose upload directory has no
    backslash in its path; on Windows, and below a POSIX directory with
    a backslash in its name, the entry holds a rewritten path. *)
Theorem entry_names_staged_file (p : Platform) (dir : jsstring) (part : Z * jsstring) :
  list_entry (stage p dir part)
    = str "file '" ++ path (stage p dir part) ++ str "'"
  <-> p = Posix /\ (c_backslash ∉ dir).
Proof.
  unfold list_entry. split.
  - intros E. apply app_inv_head, app_inv_tail in E.
    apply slashes_fixed in E. simpl in E. unfold path_join in E.
    rewrite not_elem_of_app, not_elem_of_cons in E. destruct E as (Hd & Hs & _).
    split; [| exact Hd]. destruct p; [reflexivity | now elim Hs].
  - intros [-> Hd]. f_equal. f_equal. apply slashes_fixed.
    simpl. unfold path_join. rewrite not_elem_of_app, not_elem_of_cons.
    split; [exact Hd |]. split; [discriminate | apply not_in_filename; reflexivity].
Qed.

(** * Cleanup and the other files *)

Lemma elem_of_if_set (p : jsstring) (o : option jsstring) : p ∈ if_set o -> o = Some p.
Proof.
  destruct o as [[|c s]|]; simpl; intros H; inversion H; subst;
    first [reflexivity | match goal with X : _ ∈ [] |- _ => inversion X end].
Qed.

Lemma nil_not_in_if_set (o : option jsstring) : [] ∉ if_set o.
Proof.
  destruct o as [[|c s]|]; simpl; intros H; inversion H; subst;
    match goal with X : _ ∈ [] |- _ => inversion X end.
Qed.

(** X17. [cleanup] creates nothing and removes nothing but what it was
    given: every file in the directory afterwards was there before, a
    file that is none of the uploaded files, not the list file and not
    the merged file stays, and every removal it attempts is of one of
    those, never of an empty path given as list or merged file. *)
Theorem cleanup_keeps_other_files (env : Env) (uploadedFiles : list File)
    (listFile mergedFile : option jsstring) (w : World) :
  let w' := (cleanup env uploadedFiles listFile mergedFile w).2 in
  (forall p, p ∈ disk w' -> p ∈ disk w)
  /\ (forall p, p ∈ disk w ->
        p ∉ map path uploadedFiles -> listFile <> Some p -> mergedFile <> Some p ->
        p ∈ disk w')
  /\ (forall p, EvRemove p ∈ events w' ->
        EvRemove p ∈ events w
        \/ p ∈ map path uploadedFiles
        \/ (p <> [] /\ (listFile = Some p \/ mergedFile = Some p))).
Proof.
  intros w'. unfold w'. split; [| split].
  - intros p. rewrite cleanup_run. simpl. rewrite elem_of_difference. tauto.
  - intros p Hp Hf Hl Hm. rewrite cleanup_run. simpl.
    apply elem_of_difference. split; [exact Hp |].
    intros H. apply elem_of_list_to_set, removed_subset in H.
    unfold artifacts in H. rewrite !elem_of_app in H.
    destruct H as [H | [H | H]]; [exact (Hf H) | |].
    + exact (Hl (elem_of_if_set _ _ H)).
    + exact (Hm (elem_of_if_set _ _ H)).
  - intros p. rewrite cleanup_events, elem_of_app, elem_of_cons.
    intros [H | [H | H]]; [now left | discriminate H |].
    apply list_elem_of_fmap in H as (q & Hq & Hin). injection Hq as <-.
    assert (Hart : p ∈ artifacts uploadedFiles listFile mergedFile).
    { clear - Hin. revert Hin. generalize (artifacts uploadedFiles listFile mergedFile).
      induction l as [|x l IH]; simpl; [trivial |].
      destruct (remove_error env x); rewrite !elem_of_cons.
      - intros [-> | H]; [now left | inversion H].
      - intros [-> | H]; [now left | right; exact (IH H)]. }
    unfold artifacts in Hart. rewrite !elem_of_app in Hart.
    destruct Hart as [H | [H | H]]; [right; now left | |]; right; right.
    + split; [| left; exact (elem_of_if_set _ _ H)].
      intros ->. exact (nil_not_in_if_set _ H).
    + split; [| right; exact (elem_of_if_set _ _ H)].
      intros ->. exact (nil_not_in_if_set _ H).
Qed.
